(** * Bearer-token verification of yt-mcp-remote: [src/utils/auth.py]

    A shallow embedding of [Auth0TokenVerifier.verify_token] together with
    the library calls it is made of (PyJWT's [decode] and [PyJWKClient],
    the [AccessToken] model of the MCP SDK), followed by the properties of
    the verifier. *)

From Stdlib Require Import ZArith QArith String Ascii List Lia DecimalString.
From stdpp Require Import base option list gmap strings.

Local Open Scope string_scope.
Local Open Scope Z_scope.

(** ** Python values and exceptions *)

Module Py.

(** A Python float: every float is NaN, an infinity or a (dyadic)
    rational, and Python compares floats with integers exactly. *)
Inductive pyfloat :=
| FNan
| FInf (negative : bool)
| FFin (q : Q).

(** The values [json.loads] produces.  A character of a [string] stands
    for a code point below 256. *)
#[warnings="-register-all"]
Inductive pyval :=
| PyNone
| PyBool (b : bool)
| PyInt (z : Z)
| PyFloat (f : pyfloat)
| PyStr (s : string)
| PyList (l : list pyval)
| PyDict (d : gmap string pyval).

(** The exception classes that can travel through [verify_token]. *)
Inductive exn :=
| DecodeError
| InvalidTokenError
| InvalidAlgorithmError
| InvalidKeyError
| InvalidSignatureError
| ExpiredSignatureError
| ImmatureSignatureError
| InvalidIssuedAtError
| InvalidIssuerError
| InvalidAudienceError
| InvalidSubjectError
| InvalidJTIError
| MissingRequiredClaimError (claim : string)
| PyJWKClientError
| PyJWKClientConnectionError
| PyJWKSetError
| TypeError
| ValueError
| OverflowError
| AttributeError
| ValidationError
| OtherError (name : string).

(** [isinstance(e, jwt.InvalidTokenError)]: the classes PyJWT derives
    from [InvalidTokenError]. *)
Definition is_InvalidTokenError (e : exn) : bool :=
  match e with
  | DecodeError | InvalidTokenError | InvalidAlgorithmError | InvalidKeyError
  | InvalidSignatureError | ExpiredSignatureError | ImmatureSignatureError
  | InvalidIssuedAtError | InvalidIssuerError | InvalidAudienceError
  | InvalidSubjectError | InvalidJTIError | MissingRequiredClaimError _ => true
  | _ => false
  end.

(** A computation that returns or raises. *)
Inductive result (A : Type) :=
| Ok (a : A)
| Raise (e : exn).
Arguments Ok {A} a.
Arguments Raise {A} e.

#[export] Instance result_bind : MBind result :=
  fun A B (k : A -> result B) (m : result A) =>
    match m with
    | Ok a => k a
    | Raise e => Raise e
    end.

#[export] Instance result_ret : MRet result := fun A a => Ok a.

(** [bool(v)] *)
Definition truthy (v : pyval) : bool :=
  match v with
  | PyNone => false
  | PyBool b => b
  | PyInt z => negb (z =? 0)
  | PyFloat (FFin q) => negb (Qeq_bool q 0)
  | PyFloat _ => true
  | PyStr s => negb (String.eqb s EmptyString)
  | PyList l => match l with [] => false | _ => true end
  | PyDict d => negb (Nat.eqb (size d) 0)
  end.

(** [isinstance(v, str)] *)
Definition is_str (v : pyval) : bool :=
  match v with PyStr _ => true | _ => false end.

(** [v == s] for a string [s] *)
Definition eq_str (s : string) (v : pyval) : bool :=
  match v with PyStr a => String.eqb a s | _ => false end.

(** [d.get(k)] and [d.get(k, dflt)] *)
Definition get (d : gmap string pyval) (k : string) : pyval :=
  default PyNone (d !! k).
Definition get_or (d : gmap string pyval) (k : string) (dflt : pyval) : pyval :=
  default dflt (d !! k).

(** [k in d] *)
Definition contains (d : gmap string pyval) (k : string) : bool :=
  match d !! k with Some _ => true | None => false end.

(** [c.isspace()] for a code point below 256. *)
Definition is_space (c : ascii) : bool :=
  let n := nat_of_ascii c in
  ((9 <=? n) && (n <=? 13) || (28 <=? n) && (n <=? 32)
   || (n =? 133) || (n =? 160))%nat.

Definition flush (cur : list ascii) : list string :=
  match cur with
  | [] => []
  | _ => [string_of_list_ascii (rev cur)]
  end.

(** [s.split()]: the maximal runs of non-whitespace characters, in order;
    [cur] holds the characters of the current run, last first. *)
Fixpoint split_from (cur : list ascii) (s : string) : list string :=
  match s with
  | EmptyString => flush cur
  | String c s' =>
      if is_space c then flush cur ++ split_from [] s'
      else split_from (c :: cur) s'
  end.

Definition split (s : string) : list string := split_from [] s.

(** [v.split()]: only a [str] has the attribute. *)
Definition attr_split (v : pyval) : result pyval :=
  match v with
  | PyStr s => Ok (PyList (PyStr <$> split s))
  | _ => Raise AttributeError
  end.

(** [int(v)], given [int(s)] on strings ([None] stands for [ValueError]);
    a float is truncated towards zero. *)
Definition int (int_of_str : string -> option Z) (v : pyval) : result Z :=
  match v with
  | PyInt z => Ok z
  | PyBool b => Ok (if b then 1 else 0)
  | PyFloat FNan => Raise ValueError
  | PyFloat (FInf _) => Raise OverflowError
  | PyFloat (FFin q) => Ok (Z.quot (Qnum q) (Z.pos (Qden q)))
  | PyStr s => match int_of_str s with
               | Some z => Ok z
               | None => Raise ValueError
               end
  | PyNone | PyList _ | PyDict _ => Raise TypeError
  end.

End Py.

Export Py.

(** ** The result model of the MCP SDK *)

Module MCP.

(** [mcp.server.auth.provider.AccessToken], with the values the
    constructor call is given. *)
Record AccessToken := {
  token : string;
  client_id : pyval;
  scopes : pyval;
  expires_at : pyval;
  resource : string
}.

End MCP.

Export MCP.

(** ** What the verifier takes from outside

    The token's wire format, the signature primitives, the network and
    the clock are not part of the verifier: they are the fields of
    [Externals]. *)

(** The three segments of a compact JWS after base64 and JSON decoding of
    the header; [jws_payload] is [None] when the payload segment is not a
    JSON object. *)
Record jws := {
  jws_header : gmap string pyval;
  jws_payload : option (gmap string pyval);
  jws_signing_input : string;
  jws_signature : string
}.

(** [jwt.PyJWK]: a key of the published set. *)
Record PyJWK (Key : Type) := {
  key_id : option string;
  public_key_use : option string;
  key : Key
}.
Arguments key_id {Key} _.
Arguments public_key_use {Key} _.
Arguments key {Key} _.

(** A JSON document of the key-set endpoint other than [null]: not a
    JSON object, or the keys [PyJWKSet] can build from its ["keys"]
    member. *)
Inductive jwks_document (Key : Type) :=
| NotAnObject
| KeySet (keys : list (PyJWK Key)).
Arguments NotAnObject {Key}.
Arguments KeySet {Key} keys.

Class Externals := {
  (** key objects built from a JWK (never Python's [None]) *)
  Key : Type;
  (** [int(s)] on a string *)
  int_of_str : string -> option Z;
  (** segment splitting and decoding of [api_jws._load]; [None] when the
      token is not three base64url segments with a JSON-object header *)
  jws_segments : string -> option jws;
  (** [prepare_key] and [verify] of the registered algorithm of that name
      other than ["none"]; raises when no such algorithm is registered or
      the key does not fit it *)
  crypto_verify : string -> Key -> string -> string -> result bool;
  (** outcome of the n-th HTTP request to the given URL: an exception,
      or the document [json.load] gives, [None] for [null] *)
  fetch_response : string -> nat -> result (option (jwks_document Key));
  (** [datetime.now(tz=timezone.utc).timestamp()] *)
  utcnow : Q;
  (** whether pydantic accepts the arguments of an [AccessToken] call *)
  AccessToken_validates : AccessToken -> bool
}.

(** ** PyJWT, as far as [verify_token] calls it (PyJWT 2.10) *)

Module PyJWT.

(** The [options] dictionary after merging with the library's defaults. *)
Record options := {
  verify_signature : bool;
  verify_exp : bool;
  verify_nbf : bool;
  verify_iat : bool;
  verify_aud : bool;
  verify_iss : bool;
  verify_sub : bool;
  verify_jti : bool;
  strict_aud : bool
}.

(** State of a [PyJWKClient]: what [jwk_set_cache.get()] returns (nothing
    when empty or expired) and the number of HTTP requests made so far. *)
Record client_state `{Externals} := {
  jwk_set_cache : option (jwks_document Key);
  requests : nat
}.

Section Library.
Context `{Externals}.

(** *** [api_jws] *)

(** [_load]: the segments.  (The header's ["kid"] is validated by
    [get_unverified_header] and [encode], not here.) *)
Definition _load (jwt : string) : result jws :=
  match jws_segments jwt with
  | None => Raise DecodeError
  | Some j => Ok j
  end.

(** [header.get("b64", True) is False]: a detached payload, which the
    caller does not supply. *)
Definition b64_is_false (header : gmap string pyval) : bool :=
  match header !! "b64" with
  | Some (PyBool false) => true
  | _ => false
  end.

(** [alg_obj.verify(signing_input, alg_obj.prepare_key(key), sig)] for
    the algorithm registered under [alg].  [NoneAlgorithm.prepare_key]
    raises for every key that is not [None]. *)
Definition alg_verify (alg : string) (k : Key) (signing_input sig : string)
  : result bool :=
  if String.eqb alg "none" then Raise InvalidKeyError
  else crypto_verify alg k signing_input sig.

(** [_verify_signature] *)
Definition _verify_signature (j : jws) (k : Key) (algorithms : list string)
  : result unit :=
  match jws_header j !! "alg" with
  | None => Raise InvalidAlgorithmError
  | Some alg =>
      match alg with
      | PyStr a =>
          if negb (truthy alg) || negb (existsb (String.eqb a) algorithms)
          then Raise InvalidAlgorithmError
          else
            ok ← alg_verify a k (jws_signing_input j) (jws_signature j);
            if ok : bool then Ok tt else Raise InvalidSignatureError
      | _ => Raise InvalidAlgorithmError
      end
  end.

(** *** [api_jwt] *)

(** [_decode_payload] *)
Definition _decode_payload (j : jws) : result (gmap string pyval) :=
  match jws_payload j with
  | Some payload => Ok payload
  | None => Raise DecodeError
  end.

(** [int(payload[claim])], a [ValueError] replaced by [on_value_error]. *)
Definition int_claim (v : pyval) (on_value_error : exn) : result Z :=
  match int int_of_str v with
  | Ok z => Ok z
  | Raise ValueError => Raise on_value_error
  | Raise e => Raise e
  end.

Definition _validate_iat (payload : gmap string pyval) (now leeway : Q)
  : result unit :=
  iat ← int_claim (get payload "iat") InvalidIssuedAtError;
  if negb (Qle_bool (inject_Z iat) (now + leeway))
  then Raise ImmatureSignatureError else Ok tt.

Definition _validate_nbf (payload : gmap string pyval) (now leeway : Q)
  : result unit :=
  nbf ← int_claim (get payload "nbf") DecodeError;
  if negb (Qle_bool (inject_Z nbf) (now + leeway))
  then Raise ImmatureSignatureError else Ok tt.

Definition _validate_exp (payload : gmap string pyval) (now leeway : Q)
  : result unit :=
  exp ← int_claim (get payload "exp") DecodeError;
  if Qle_bool (inject_Z exp) (now - leeway)
  then Raise ExpiredSignatureError else Ok tt.

Definition _validate_iss (payload : gmap string pyval) (issuer : string)
  : result unit :=
  match payload !! "iss" with
  | None => Raise (MissingRequiredClaimError "iss")
  | Some iss => if eq_str issuer iss then Ok tt else Raise InvalidIssuerError
  end.

Definition _validate_aud (payload : gmap string pyval) (audience : string)
  (strict : bool) : result unit :=
  if negb (contains payload "aud") || negb (truthy (get payload "aud"))
  then Raise (MissingRequiredClaimError "aud")
  else
    let audience_claims := get payload "aud" in
    if strict then
      if negb (is_str audience_claims) then Raise InvalidAudienceError
      else if negb (eq_str audience audience_claims)
           then Raise InvalidAudienceError
           else Ok tt
    else
      let as_list :=
        match audience_claims with
        | PyStr a => Some [PyStr a]
        | PyList l => Some l
        | _ => None
        end in
      match as_list with
      | None => Raise InvalidAudienceError
      | Some claims =>
          if existsb (fun c => negb (is_str c)) claims
          then Raise InvalidAudienceError
          else if negb (existsb (eq_str audience) claims)
               then Raise InvalidAudienceError
               else Ok tt
      end.

Definition _validate_sub (payload : gmap string pyval) : result unit :=
  match payload !! "sub" with
  | None => Ok tt
  | Some sub => if is_str sub then Ok tt else Raise InvalidSubjectError
  end.

Definition _validate_jti (payload : gmap string pyval) : result unit :=
  match payload !! "jti" with
  | None => Ok tt
  | Some jti => if is_str jti then Ok tt else Raise InvalidJTIError
  end.

Definition when (b : bool) (check : result unit) : result unit :=
  if b then check else Ok tt.

(** [_validate_claims] with no required claims and no expected subject. *)
Definition _validate_claims (payload : gmap string pyval) (o : options)
  (audience issuer : string) (leeway : Q) : result unit :=
  let now := utcnow in
  when (contains payload "iat" && verify_iat o) (_validate_iat payload now leeway);;
  when (contains payload "nbf" && verify_nbf o) (_validate_nbf payload now leeway);;
  when (contains payload "exp" && verify_exp o) (_validate_exp payload now leeway);;
  when (verify_iss o) (_validate_iss payload issuer);;
  when (verify_aud o) (_validate_aud payload audience (strict_aud o));;
  when (verify_sub o) (_validate_sub payload);;
  when (verify_jti o) (_validate_jti payload).

(** [jwt.decode(token, key, algorithms=..., audience=..., issuer=...,
    options=...)] with the default leeway of zero. *)
Definition decode (jwt : string) (k : Key) (algorithms : list string)
  (audience issuer : string) (o : options) : result (gmap string pyval) :=
  if verify_signature o && match algorithms with [] => true | _ => false end
  then Raise DecodeError
  else
    j ← _load jwt;
    if b64_is_false (jws_header j) then Raise DecodeError
    else
      when (verify_signature o) (_verify_signature j k algorithms);;
      payload ← _decode_payload j;
      _validate_claims payload o audience issuer 0;;
      Ok payload.

(** [decode_complete(token, options={"verify_signature": False})]: with
    the signature check off every claim check defaults to off as well;
    the header is what the caller reads. *)
Definition decode_unverified_header (jwt : string)
  : result (gmap string pyval) :=
  j ← _load jwt;
  if b64_is_false (jws_header j) then Raise DecodeError
  else
    _decode_payload j;;
    Ok (jws_header j).

(** *** [PyJWKClient] *)

Definition M (A : Type) : Type := client_state -> result A * client_state.

(** [fetch_data]: one request; the [finally] clause puts the document
    in the cache, and [put] empties the cache when it is given [None]:
    when the request failed and when the document is [null]. *)
Definition fetch_data (uri : string) : M (option (jwks_document Key)) :=
  fun st =>
    let r := fetch_response uri (requests st) in
    (r, {| jwk_set_cache := match r with
                            | Ok (Some d) => Some d
                            | Ok None | Raise _ => None
                            end;
           requests := S (requests st) |}).

(** [get_jwk_set(refresh)], up to [PyJWKSet.from_dict]. *)
Definition get_jwk_set (uri : string) (refresh : bool) : M (list (PyJWK Key)) :=
  fun st =>
    let '(data, st') :=
      match (if refresh then None else jwk_set_cache st) with
      | Some d => (Ok (Some d), st)
      | None => fetch_data uri st
      end in
    match data with
    | Raise e => (Raise e, st')
    | Ok None | Ok (Some NotAnObject) => (Raise PyJWKClientError, st')
    | Ok (Some (KeySet [])) => (Raise PyJWKSetError, st')
    | Ok (Some (KeySet keys)) => (Ok keys, st')
    end.

Definition is_signing_key (jwk : PyJWK Key) : bool :=
  match public_key_use jwk with
  | None => true
  | Some use => String.eqb use "sig"
  end
  && match key_id jwk with
     | Some kid => negb (String.eqb kid EmptyString)
     | None => false
     end.

(** [get_signing_keys(refresh)] *)
Definition get_signing_keys (uri : string) (refresh : bool)
  : M (list (PyJWK Key)) :=
  fun st =>
    match get_jwk_set uri refresh st with
    | (Raise e, st') => (Raise e, st')
    | (Ok keys, st') =>
        match List.filter is_signing_key keys with
        | [] => (Raise PyJWKClientError, st')
        | signing_keys => (Ok signing_keys, st')
        end
    end.

(** [match_kid]: the first key whose identifier equals [kid]. *)
Definition match_kid (signing_keys : list (PyJWK Key)) (kid : pyval)
  : option (PyJWK Key) :=
  List.find (fun jwk => match key_id jwk with
                        | Some id => eq_str id kid
                        | None => false
                        end) signing_keys.

(** [get_signing_key(kid)]: on a miss, refresh the set and try again,
    once. *)
Definition get_signing_key (uri : string) (kid : pyval) : M (PyJWK Key) :=
  fun st =>
    match get_signing_keys uri false st with
    | (Raise e, st1) => (Raise e, st1)
    | (Ok signing_keys, st1) =>
        match match_kid signing_keys kid with
        | Some signing_key => (Ok signing_key, st1)
        | None =>
            match get_signing_keys uri true st1 with
            | (Raise e, st2) => (Raise e, st2)
            | (Ok signing_keys', st2) =>
                match match_kid signing_keys' kid with
                | Some signing_key => (Ok signing_key, st2)
                | None => (Raise PyJWKClientError, st2)
                end
            end
        end
    end.

(** [get_signing_key_from_jwt(token)] *)
Definition get_signing_key_from_jwt (uri : string) (jwt : string)
  : M (PyJWK Key) :=
  fun st =>
    match decode_unverified_header jwt with
    | Raise e => (Raise e, st)
    | Ok header => get_signing_key uri (get header "kid") st
    end.

End Library.

End PyJWT.

Export PyJWT.

(** ** [src/utils/auth.py] *)

Module Auth.

Record Auth0TokenVerifier := {
  domain : string;
  audience : string;
  algorithms : list string;
  jwks_url : string;
  issuer : string
}.

(** [Auth0TokenVerifier.__init__]; [algorithms or ["RS256"]] replaces
    [None] and the empty list. *)
Definition Auth0TokenVerifier_init (domain audience : string)
  (algorithms : option (list string)) : Auth0TokenVerifier :=
  {| domain := domain;
     audience := audience;
     algorithms := match algorithms with
                   | Some (a :: l) => a :: l
                   | Some [] | None => ["RS256"]
                   end;
     jwks_url := "https://" ++ domain ++ "/.well-known/jwks.json";
     issuer := "https://" ++ domain ++ "/" |}.

(** The [options] of the [decode] call: the five entries it writes, the
    others at the library's defaults. *)
Definition decode_options : options :=
  {| verify_signature := true;
     verify_aud := true;
     verify_iat := true;
     verify_exp := true;
     verify_iss := true;
     verify_nbf := true;
     verify_sub := true;
     verify_jti := true;
     strict_aud := false |}.

Section Verifier.
Context `{Externals}.

(** Step 3: the granted scopes. *)
Definition extract_scopes (payload : gmap string pyval) : result pyval :=
  match payload !! "scope" with
  | Some scope => attr_split scope
  | None =>
      match payload !! "permissions" with
      | Some permissions => Ok permissions
      | None => Ok (PyList [])
      end
  end.

(** [payload.get("azp") or payload.get("client_id", "unknown")] *)
Definition resolve_client_id (payload : gmap string pyval) : pyval :=
  if truthy (get payload "azp") then get payload "azp"
  else get_or payload "client_id" (PyStr "unknown").

(** What the field [expires_at : int | None] of the model holds for an
    argument: [None] stays [None] and an integer stays; of the other
    arguments the model accepts (a boolean, a float without fractional
    part, a string that reads as an integer) each becomes the integer it
    denotes, which is the one [int] gives for it.  Whether the model
    accepts the arguments is [AccessToken_validates]. *)
Definition pydantic_int_or_none (v : pyval) : result pyval :=
  match v with
  | PyNone => Ok PyNone
  | _ => match int int_of_str v with
         | Ok z => Ok (PyInt z)
         | Raise _ => Raise ValidationError
         end
  end.

(** The [AccessToken(...)] call: a pydantic model, which raises when the
    arguments do not validate and holds the validated values; these are
    the arguments, but for the expiry. *)
Definition new_AccessToken (a : AccessToken) : result AccessToken :=
  if AccessToken_validates a then
    expires ← pydantic_int_or_none (expires_at a);
    Ok {| token := token a;
          client_id := client_id a;
          scopes := scopes a;
          expires_at := expires;
          resource := resource a |}
  else Raise ValidationError.

(** Steps 3 and 4, after [decode] has returned [payload]. *)
Definition build_result (self : Auth0TokenVerifier) (jwt : string)
  (payload : gmap string pyval) : result AccessToken :=
  scopes ← extract_scopes payload;
  let client_id := resolve_client_id payload in
  let expires_at := get payload "exp" in
  new_AccessToken {| token := jwt;
                     client_id := client_id;
                     scopes := scopes;
                     expires_at := expires_at;
                     resource := audience self |}.

(** The body of the outer [try] of [verify_token]: it returns (possibly
    [None], from the two inner handlers) or raises. *)
Definition verify_token_body (self : Auth0TokenVerifier) (jwt : string)
  : M (option AccessToken) :=
  fun st =>
    match get_signing_key_from_jwt (jwks_url self) jwt st with
    | (Raise jwks_error, st') => (Ok None, st')
    | (Ok signing_key, st') =>
        match decode jwt (key signing_key) (algorithms self)
                (audience self) (issuer self) decode_options with
        | Raise decode_error => (Ok None, st')
        | Ok payload =>
            match build_result self jwt payload with
            | Ok access_token => (Ok (Some access_token), st')
            | Raise e => (Raise e, st')
            end
        end
    end.

(** [verify_token]: the two outer handlers turn whatever the body raises
    into [None]. *)
Definition verify_token (self : Auth0TokenVerifier) (jwt : string)
  (st : client_state) : option AccessToken * client_state :=
  match verify_token_body self jwt st with
  | (Ok r, st') => (r, st')
  | (Raise e, st') =>
      if is_InvalidTokenError e then (None, st') else (None, st')
  end.

End Verifier.

End Auth.

Export Auth.

(** ** A concrete outside world, to run the verifier on *)

Module Demo.

Definition k1 : PyJWK nat :=
  {| key_id := Some "k1"; public_key_use := Some "sig"; key := 1%nat |}.
Definition k2 : PyJWK nat :=
  {| key_id := Some "k2"; public_key_use := None; key := 2%nat |}.

Definition header (alg kid : string) : gmap string pyval :=
  list_to_map [("alg", PyStr alg); ("kid", PyStr kid); ("typ", PyStr "JWT")].

(** Registered claims that pass every check at time 1000 for the
    verifier below; [extra] adds to them or replaces them. *)
Definition claims (extra : list (string * pyval)) : gmap string pyval :=
  list_to_map (extra ++
    [("iss", PyStr "https://tenant.example/"); ("aud", PyStr "api");
     ("sub", PyStr "user"); ("iat", PyInt 900); ("exp", PyInt 2000)]).

Definition signed (h payload : gmap string pyval) : jws :=
  {| jws_header := h; jws_payload := Some payload;
     jws_signing_input := "input"; jws_signature := "signed" |}.

Definition p_full : gmap string pyval :=
  claims [("scope", PyStr "a b c"); ("azp", PyStr "X"); ("client_id", PyStr "Y")].
Definition p_permissions : gmap string pyval :=
  claims [("permissions", PyList [PyStr "a"; PyStr "b"]); ("client_id", PyStr "Y")].
Definition p_bare : gmap string pyval := claims [].
Definition p_no_exp : gmap string pyval :=
  list_to_map [("iss", PyStr "https://tenant.example/"); ("aud", PyStr "api")].
Definition p_expired : gmap string pyval := claims [("exp", PyInt 1000)].
Definition p_aud_list : gmap string pyval :=
  claims [("aud", PyList [PyStr "api"; PyStr "https://tenant.example/userinfo"])].
Definition p_aud_other : gmap string pyval := claims [("aud", PyStr "other")].
Definition p_azp_empty : gmap string pyval :=
  claims [("azp", PyStr EmptyString); ("client_id", PyStr "Y")].
Definition p_scope_number : gmap string pyval := claims [("scope", PyInt 5)].
Definition p_scope_empty : gmap string pyval :=
  claims [("scope", PyStr EmptyString); ("permissions", PyList [PyStr "a"])].

Definition tokens : list (string * jws) :=
  [("full", signed (header "RS256" "k1") p_full);
   ("permissions", signed (header "RS256" "k1") p_permissions);
   ("bare", signed (header "RS256" "k1") p_bare);
   ("no-exp", signed (header "RS256" "k1") p_no_exp);
   ("expired", signed (header "RS256" "k1") p_expired);
   ("aud-list", signed (header "RS256" "k1") p_aud_list);
   ("aud-other", signed (header "RS256" "k1") p_aud_other);
   ("azp-empty", signed (header "RS256" "k1") p_azp_empty);
   ("scope-number", signed (header "RS256" "k1") p_scope_number);
   ("scope-empty", signed (header "RS256" "k1") p_scope_empty);
   ("hs256", signed (header "HS256" "k1") p_full);
   ("none", signed (header "none" "k1") p_full);
   ("rotated", signed (header "RS256" "k2") p_full);
   ("unknown-kid", signed (header "RS256" "k3") p_full)].

Definition segments (jwt : string) : option jws :=
  snd <$> List.find (fun e => String.eqb (fst e) jwt) tokens.

(** RS256 and HS256 are registered, and every key verifies the signature
    ["signed"] under both. *)
Definition verify_with (alg : string) (k : nat) (signing_input sig : string)
  : result bool :=
  if String.eqb alg "RS256" || String.eqb alg "HS256"
  then Ok (String.eqb sig "signed")
  else Raise InvalidAlgorithmError.

(** The endpoint publishes [k1], and from the second request on [k2]
    as well. *)
Definition responses (uri : string) (n : nat)
  : result (option (jwks_document nat)) :=
  if String.eqb uri "https://tenant.example/.well-known/jwks.json"
  then Ok (Some (KeySet (match n with O => [k1] | S _ => [k1; k2] end)))
  else Raise PyJWKClientConnectionError.

(** The field types of the model: a string, a list of strings, an
    integer or [None]. *)
Definition well_typed (a : AccessToken) : bool :=
  is_str (client_id a)
  && match scopes a with PyList l => forallb is_str l | _ => false end
  && match expires_at a with PyInt _ | PyNone => true | _ => false end.

#[local] Instance world : Externals :=
  {| Key := nat;
     int_of_str := fun _ => None;
     jws_segments := segments;
     crypto_verify := verify_with;
     fetch_response := responses;
     utcnow := 1000;
     AccessToken_validates := well_typed |}.

Definition verifier : Auth0TokenVerifier :=
  Auth0TokenVerifier_init "tenant.example" "api" None.

(** The client after its first request: [k1] is cached. *)
Definition warm : @client_state world :=
  {| jwk_set_cache := Some (KeySet [k1]); requests := 1 |}.

(** A fresh client. *)
Definition cold : @client_state world :=
  {| jwk_set_cache := None; requests := 0 |}.

(** [verify_token] of that verifier in that world. *)
Definition run (jwt : string) (st : @client_state world)
  : option AccessToken * @client_state world :=
  verify_token verifier jwt st.

End Demo.

(** ** Vocabulary of the statements *)

Module Spec.

(** The audience claims that [decode] lets through for an expected
    audience: that string, or a list of strings with it among them. *)
Definition aud_matches (audience : string) (v : pyval) : Prop :=
  v = PyStr audience \/
  exists l, v = PyList l /\ Forall (fun c => is_str c = true) l /\
            In (PyStr audience) l.

(** The audience claim equals the expected audience exactly. *)
Definition aud_equals (audience : string) (v : pyval) : Prop :=
  v = PyStr audience.

(** The client identifier by presence alone: the ["azp"] claim if
    present, else the ["client_id"] claim if present, else ["unknown"]. *)
Definition client_id_by_presence (payload : gmap string pyval) : pyval :=
  match payload !! "azp" with
  | Some azp => azp
  | None =>
      match payload !! "client_id" with
      | Some cid => cid
      | None => PyStr "unknown"
      end
  end.

(** The signing key a key-set document holds for a key identifier. *)
Definition document_key `{Externals} (d : jwks_document Key) (kid : pyval)
  : option (PyJWK Key) :=
  match d with
  | NotAnObject => None
  | KeySet keys => match_kid (List.filter is_signing_key keys) kid
  end.

(** The granted scopes by the claims of the payload: the words of the
    ["scope"] string if the claim is present, else the ["permissions"]
    claim if present, else the empty list. *)
Definition granted_scopes (payload : gmap string pyval) : pyval :=
  match payload !! "scope" with
  | Some (PyStr s) => PyList (PyStr <$> split s)
  | Some _ => PyList []
  | None =>
      match payload !! "permissions" with
      | Some permissions => permissions
      | None => PyList []
      end
  end.

(** Whitespace among the code points below 256: tab, line feed,
    vertical tab, form feed, carriage return, the four separators
    28 to 31, space, next line and no-break space. *)
Definition whitespace (c : ascii) : Prop :=
  In (nat_of_ascii c) [9; 10; 11; 12; 13; 28; 29; 30; 31; 32; 133; 160]%nat.

(** A string of whitespace only, possibly empty. *)
Definition blank (s : string) : Prop :=
  Forall whitespace (list_ascii_of_string s).

(** A string that is not empty and has no whitespace in it. *)
Definition solid (s : string) : Prop :=
  s <> EmptyString /\
  Forall (fun c => ~ whitespace c) (list_ascii_of_string s).

(** Where a word may end: at the end of the string or before
    whitespace. *)
Definition ends_word (rest : string) : Prop :=
  match rest with
  | EmptyString => True
  | String c _ => whitespace c
  end.

(** The whitespace-separated words of a string, in order: a string of
    whitespace only has none; otherwise the string is some whitespace,
    then the first word, which runs up to the next whitespace or the
    end, then a remainder that holds the other words. *)
Inductive words_of : string -> list string -> Prop :=
| words_none s :
    blank s -> words_of s []
| words_next sp w rest ws :
    blank sp -> solid w -> ends_word rest -> words_of rest ws ->
    words_of (sp ++ w ++ rest) (w :: ws).

(** The client identifier with Python's [or]: the ["azp"] claim if
    present and true as a condition, else the ["client_id"] claim if
    present, else ["unknown"]. *)
Definition client_id_by_truth (payload : gmap string pyval) : pyval :=
  match payload !! "azp" with
  | Some azp =>
      if truthy azp then azp
      else match payload !! "client_id" with
           | Some cid => cid
           | None => PyStr "unknown"
           end
  | None =>
      match payload !! "client_id" with
      | Some cid => cid
      | None => PyStr "unknown"
      end
  end.

(** The arguments of the [AccessToken] call for a payload. *)
Definition AccessToken_arguments (self : Auth0TokenVerifier) (jwt : string)
  (payload : gmap string pyval) : AccessToken :=
  {| token := jwt;
     client_id := client_id_by_truth payload;
     scopes := granted_scopes payload;
     expires_at := match payload !! "exp" with
                   | Some exp => exp
                   | None => PyNone
                   end;
     resource := audience self |}.

(** The expiry of the result: nothing without an ["exp"] claim, else the
    integer the claim denotes. *)
Definition expiry_of `{Externals} (payload : gmap string pyval) : pyval :=
  match payload !! "exp" with
  | Some exp => match int int_of_str exp with
                | Ok z => PyInt z
                | Raise _ => exp
                end
  | None => PyNone
  end.

(** The result an accepted token yields. *)
Definition accepted_result `{Externals} (self : Auth0TokenVerifier)
  (jwt : string) (payload : gmap string pyval) : AccessToken :=
  {| token := jwt;
     client_id := client_id_by_truth payload;
     scopes := granted_scopes payload;
     expires_at := expiry_of payload;
     resource := audience self |}.

End Spec.

Export Spec.

(** ** More of Python's [str] *)

Module Str.

(** [s.split(sep)] for a separator of one character: the fields between
    the separators, empty ones included. *)
Fixpoint split_on (sep : ascii) (s : string) : list string :=
  match s with
  | EmptyString => [EmptyString]
  | String c s' =>
      if Ascii.eqb c sep then EmptyString :: split_on sep s'
      else match split_on sep s' with
           | w :: ws => String c w :: ws
           | [] => [String c EmptyString]
           end
  end.

(** [s.lstrip()], [s.rstrip()] and [s.strip()] *)
Fixpoint lstrip (s : string) : string :=
  match s with
  | EmptyString => EmptyString
  | String c s' => if is_space c then lstrip s' else s
  end.

Fixpoint rstrip (s : string) : string :=
  match s with
  | EmptyString => EmptyString
  | String c s' =>
      match rstrip s' with
      | EmptyString => if is_space c then EmptyString else String c EmptyString
      | r => String c r
      end
  end.

Definition strip (s : string) : string := rstrip (lstrip s).

(** [s[:n]] and [s[n:]] for [n >= 0]; [s[-n:]] *)
Fixpoint take (n : nat) (s : string) : string :=
  match n, s with
  | S n', String c s' => String c (take n' s')
  | _, _ => EmptyString
  end.

Fixpoint drop (n : nat) (s : string) : string :=
  match n, s with
  | S n', String _ s' => drop n' s'
  | _, _ => s
  end.

Definition last_n (n : nat) (s : string) : string :=
  drop (String.length s - n) s.

(** [c * n] *)
Fixpoint repeat_char (c : ascii) (n : nat) : string :=
  match n with
  | O => EmptyString
  | S n' => String c (repeat_char c n')
  end.

(** The characters of a string. *)
Definition chars (s : string) : list ascii := list_ascii_of_string s.

Definition first_char (s : string) : option ascii :=
  match s with
  | EmptyString => None
  | String c _ => Some c
  end.

Fixpoint last_char (s : string) : option ascii :=
  match s with
  | EmptyString => None
  | String c EmptyString => Some c
  | String _ s' => last_char s'
  end.

End Str.

Export Str.

(** ** The rest of [src/utils/auth.py] *)

Module Config.

(** [not v] for what [os.getenv] returns. *)
Definition unset (v : option string) : bool :=
  match v with
  | None => true
  | Some s => String.eqb s EmptyString
  end.

(** [create_auth0_verifier], with the environment as a map. *)
Definition create_auth0_verifier (environ : gmap string string)
  : result Auth0TokenVerifier :=
  let domain := environ !! "AUTH0_DOMAIN" in
  let audience := environ !! "AUTH0_AUDIENCE" in
  let algorithms_str := default "RS256" (environ !! "AUTH0_ALGORITHMS") in
  if unset domain then Raise ValueError
  else if unset audience then Raise ValueError
  else
    let algorithms := strip <$> split_on "," algorithms_str in
    Ok (Auth0TokenVerifier_init (default EmptyString domain)
          (default EmptyString audience) (Some algorithms)).

(** The sanitized token of the log lines of [verify_token]. *)
Definition token_preview (jwt : string) : string :=
  if (16 <? String.length jwt)%nat
  then take 10 jwt ++ "..." ++ last_n 6 jwt
  else "***SHORT***".

(** [token.split('.')[0]] *)
Definition header_segment (jwt : string) : string :=
  match split_on "." jwt with
  | h :: _ => h
  | [] => EmptyString
  end.

(** [header += '=' * (4 - len(header) % 4)] *)
Definition pad_header (h : string) : string :=
  h ++ repeat_char "=" (4 - String.length h mod 4).

Section HeaderInfo.
(** [base64.urlsafe_b64decode] and [json.loads] *)
Variable urlsafe_b64decode : string -> result string.
Variable json_loads : string -> result pyval.

(** [_get_token_header_info]: any exception gives the empty dict. *)
Definition _get_token_header_info (jwt : string) : pyval :=
  match urlsafe_b64decode (pad_header (header_segment jwt)) ≫= json_loads with
  | Ok v => v
  | Raise _ => PyDict ∅
  end.
End HeaderInfo.

End Config.

Export Config.

(** ** [src/main.py] *)

Module Main.

(** The character class [[0-9A-Za-z_-]]. *)
Definition is_id_char (c : ascii) : bool :=
  let n := nat_of_ascii c in
  ((48 <=? n) && (n <=? 57) || (65 <=? n) && (n <=? 90)
   || (97 <=? n) && (n <=? 122) || (n =? 95) || (n =? 45))%nat.

(** [([0-9A-Za-z_-]{11})] at the head of [s]. *)
Definition id_at (s : string) : option string :=
  let id := take 11 s in
  if (String.length id =? 11)%nat && forallb is_id_char (chars id)
  then Some id else None.

(** The pattern [(?:v=|\/)([0-9A-Za-z_-]{11}).*] at the head of [s]: its
    group 1.  The trailing [.*] always matches. *)
Definition match_here (s : string) : option string :=
  match (if String.prefix "v=" s then id_at (drop 2 s) else None) with
  | Some id => Some id
  | None => if String.prefix "/" s then id_at (drop 1 s) else None
  end.

(** [re.search(video_id_pattern, url)], then [group(1)]: the match at
    the leftmost position that has one. *)
Fixpoint search_video_id (url : string) : option string :=
  match url with
  | EmptyString => None
  | String _ rest =>
      match match_here url with
      | Some id => Some id
      | None => search_video_id rest
      end
  end.

(** The decimal digits of a natural number. *)
Definition digits (n : N) : string := NilZero.string_of_uint (N.to_uint n).

(** [f"{z:02d}"] *)
Definition fmt_02d (z : Z) : string :=
  if z <? 0 then "-" ++ digits (Z.to_N (- z))
  else
    let d := digits (Z.to_N z) in
    if (String.length d <? 2)%nat then "0" ++ d else d.

Definition newline : string := String (ascii_of_nat 10) EmptyString.

(** What a tool call ends in. *)
Inductive outcome :=
| Returned (s : string)
| RaisedValueError (message : string)
| RaisedException (message : string)
| RaisedOSError.

Section Tools.
(** The items of a transcript and what the loop body reads of one, in
    this order: [int(entry.start // 60)], [int(entry.start % 60)] and
    [entry.text] as the f-string formats it.  Each can raise (an item
    without the attribute, a start that is not a number); [inl m] is an
    exception [e] with [str(e) = m]. *)
Variable Entry : Type.
Variable minutes_of : Entry -> string + Z.
Variable seconds_of : Entry -> string + Z.
Variable text_of : Entry -> string + string.
(** [YouTubeTranscriptApi.get_transcript]; [inl m] is an exception [e]
    with [str(e) = m]. *)
Variable get_transcript : string -> string + list Entry.
(** [open(path, "r").read()]; [None] when it raises. *)
Variable read_file : string -> option string.

(** The body of the loop of [format_transcript]. *)
Definition format_entry (entry : Entry) : string + string :=
  match minutes_of entry with
  | inl m => inl m
  | inr minutes =>
      match seconds_of entry with
      | inl m => inl m
      | inr seconds =>
          let timestamp :=
            "[" ++ fmt_02d minutes ++ ":" ++ fmt_02d seconds ++ "]" in
          match text_of entry with
          | inl m => inl m
          | inr text => inr (timestamp ++ " " ++ text)
          end
      end
  end.

(** The loop: the formatted entries, or the first exception. *)
Fixpoint formatted_entries (transcript : list Entry) : string + list string :=
  match transcript with
  | [] => inr []
  | entry :: transcript' =>
      match format_entry entry with
      | inl m => inl m
      | inr formatted_entry =>
          match formatted_entries transcript' with
          | inl m => inl m
          | inr rest => inr (formatted_entry :: rest)
          end
      end
  end.

(** [format_transcript] *)
Definition format_transcript (transcript : list Entry) : string + string :=
  match formatted_entries transcript with
  | inl m => inl m
  | inr lines => inr (String.concat newline lines)
  end.

(** [fetch_video_transcript]: the call of the service and the formatting
    are both inside the [try]. *)
Definition fetch_video_transcript (url : string) : outcome :=
  match search_video_id url with
  | None => RaisedValueError "Invalid YouTube URL"
  | Some video_id =>
      match get_transcript video_id with
      | inr transcript =>
          match format_transcript transcript with
          | inr s => Returned s
          | inl message =>
              RaisedException ("Error fetching transcript: " ++ message)
          end
      | inl message =>
          RaisedException ("Error fetching transcript: " ++ message)
      end
  end.

(** One step of [posixpath.join]. *)
Definition join_step (path b : string) : string :=
  if String.prefix "/" b then b
  else if String.eqb path EmptyString
          || match last_char path with
             | Some c => Ascii.eqb c "/"
             | None => false
             end
       then path ++ b
       else path ++ "/" ++ b.

(** [os.path.join(a, *p)] *)
Definition os_path_join (a : string) (p : list string) : string :=
  fold_left join_step p a.

(** [fetch_instructions], in the directory of the script. *)
Definition prompt_path (script_dir prompt_name : string) : string :=
  os_path_join script_dir ["prompts"; prompt_name ++ ".md"].

Definition fetch_instructions (script_dir prompt_name : string) : outcome :=
  match read_file (prompt_path script_dir prompt_name) with
  | Some content => Returned content
  | None => RaisedOSError
  end.

End Tools.

(** What the module hands to [FastMCP]; the two URLs are [AnyHttpUrl]
    objects, held as the strings they stand for. *)
Record server := {
  port : Z;
  instructions : string;
  token_verifier : Auth0TokenVerifier;
  issuer_url : string;
  resource_server_url : string;
  required_scopes : list string
}.

(** The module body up to the [FastMCP] call, with the environment as it
    is after [load_dotenv]; [log_auth0_diagnostics] only logs.
    [AnyHttpUrl s] is pydantic's URL of the string [s], which is not
    always [s] itself (the host is put in lower case, a default port is
    dropped), or [None] when [s] is not an http or https URL and the call
    raises. *)
Definition startup (int_of_str : string -> option Z)
  (AnyHttpUrl : string -> option string)
  (read_file : string -> option string) (environ : gmap string string)
  : result server :=
  let auth0_domain := environ !! "AUTH0_DOMAIN" in
  let resource_server_url := environ !! "RESOURCE_SERVER_URL" in
  match int_of_str (default "8000" (environ !! "PORT")) with
  | None => Raise ValueError
  | Some port =>
      if unset auth0_domain then Raise ValueError
      else if unset resource_server_url then Raise ValueError
      else
        match read_file "prompts/server_instructions.md" with
        | None => Raise (OtherError "OSError")
        | Some server_instructions =>
            token_verifier ← create_auth0_verifier environ;
            match AnyHttpUrl
                    ("https://" ++ default EmptyString auth0_domain ++ "/")
            with
            | None => Raise ValidationError
            | Some issuer_url =>
                match AnyHttpUrl (default EmptyString resource_server_url)
                with
                | None => Raise ValidationError
                | Some resource_url =>
                    Ok {| port := port;
                          instructions := server_instructions;
                          token_verifier := token_verifier;
                          issuer_url := issuer_url;
                          resource_server_url := resource_url;
                          required_scopes :=
                            ["openid"; "profile"; "email"; "address";
                             "phone"] |}
                end
            end
        end
  end.

End Main.

Export Main.

(** ** More concrete inputs *)

Module Demo2.

Definition p_early : gmap string pyval := Demo.claims [("iat", PyInt 5000)].
Definition p_not_yet : gmap string pyval := Demo.claims [("nbf", PyInt 5000)].

Definition header_no_kid : gmap string pyval :=
  list_to_map [("alg", PyStr "RS256"); ("typ", PyStr "JWT")].

Definition forged : jws :=
  {| jws_header := Demo.header "RS256" "k1"; jws_payload := Some Demo.p_full;
     jws_signing_input := "input"; jws_signature := "forged" |}.

Definition tokens : list (string * jws) :=
  [("forged", forged);
   ("no-kid", Demo.signed header_no_kid Demo.p_full);
   ("early", Demo.signed (Demo.header "RS256" "k1") p_early);
   ("not-yet", Demo.signed (Demo.header "RS256" "k1") p_not_yet)].

Definition segments (jwt : string) : option jws :=
  snd <$> List.find (fun e => String.eqb (fst e) jwt) (tokens ++ Demo.tokens).

(** An endpoint that is down. *)
Definition down (uri : string) (n : nat)
  : result (option (jwks_document nat)) :=
  Raise PyJWKClientConnectionError.

#[local] Instance world : Externals :=
  {| Key := nat;
     int_of_str := fun _ => None;
     jws_segments := segments;
     crypto_verify := Demo.verify_with;
     fetch_response := Demo.responses;
     utcnow := 1000;
     AccessToken_validates := Demo.well_typed |}.

#[local] Instance offline : Externals :=
  {| Key := nat;
     int_of_str := fun _ => None;
     jws_segments := segments;
     crypto_verify := Demo.verify_with;
     fetch_response := down;
     utcnow := 1000;
     AccessToken_validates := Demo.well_typed |}.

Definition warm : @client_state world :=
  @Build_client_state world (Some (KeySet [Demo.k1])) 1.

Definition cold : @client_state offline :=
  @Build_client_state offline None 0.

(** Environments of the process. *)
Definition environ : gmap string string :=
  list_to_map [("AUTH0_DOMAIN", "tenant.example"); ("AUTH0_AUDIENCE", "api");
               ("AUTH0_ALGORITHMS", "RS256, ES256 ");
               ("RESOURCE_SERVER_URL", "https://mcp.example/")].

Definition environ_blank_algorithms : gmap string string :=
  list_to_map [("AUTH0_DOMAIN", "tenant.example"); ("AUTH0_AUDIENCE", "api");
               ("AUTH0_ALGORITHMS", " , ")].

Definition environ_no_audience : gmap string string :=
  list_to_map [("AUTH0_DOMAIN", "tenant.example");
               ("RESOURCE_SERVER_URL", "https://mcp.example/")].

(** A process whose domain is written with capitals. *)
Definition environ_capitals : gmap string string :=
  list_to_map [("AUTH0_DOMAIN", "Tenant.Example"); ("AUTH0_AUDIENCE", "api");
               ("RESOURCE_SERVER_URL", "https://mcp.example/")].

(** [AnyHttpUrl] on the strings used below. *)
Definition http_url (s : string) : option string :=
  if String.eqb s "https://tenant.example/" then Some "https://tenant.example/"
  else if String.eqb s "https://Tenant.Example/"
       then Some "https://tenant.example/"
       else if String.eqb s "https://mcp.example/"
            then Some "https://mcp.example/"
            else None.

(** [int] on the two port strings used below. *)
Definition int_of_port (s : string) : option Z :=
  if String.eqb s "8000" then Some 8000 else None.

(** A file system with the server instructions and one prompt. *)
Definition files (path : string) : option string :=
  if String.eqb path "prompts/server_instructions.md" then Some "Be brief."
  else if String.eqb path "/srv/app/prompts/write_blog_post.md"
       then Some "Write a post."
       else if String.eqb path "/etc/hostname.md" then Some "host"
            else None.

(** Transcript items: a snippet with a start in seconds and a text, or
    a plain dictionary, which has no attributes. *)
Inductive item :=
| Snippet (start : Z) (text : string)
| Dictionary.

Definition item_minutes (e : item) : string + Z :=
  match e with
  | Snippet start _ => inr (start / 60)
  | Dictionary => inl "'dict' object has no attribute 'start'"
  end.

Definition item_seconds (e : item) : string + Z :=
  match e with
  | Snippet start _ => inr (start mod 60)
  | Dictionary => inl "'dict' object has no attribute 'start'"
  end.

Definition item_text (e : item) : string + string :=
  match e with
  | Snippet _ text => inr text
  | Dictionary => inl "'dict' object has no attribute 'text'"
  end.

(** A transcript service that knows two videos, one as snippets and one
    as dictionaries. *)
Definition transcripts (video_id : string) : string + list item :=
  if String.eqb video_id "dQw4w9WgXcQ"
  then inr [Snippet 0 "intro"; Snippet 75 "verse"]
  else if String.eqb video_id "aaaaaaaaaaa"
       then inr [Snippet 0 "intro"; Dictionary]
       else inl "no transcript".

End Demo2.

(** ** A world whose tokens carry their times as text *)

Module Demo3.

Definition p_exp_text : gmap string pyval :=
  Demo.claims [("exp", PyStr "2000")].

Definition tokens : list (string * jws) :=
  [("exp-text", Demo.signed (Demo.header "RS256" "k1") p_exp_text)].

Definition segments (jwt : string) : option jws :=
  snd <$> List.find (fun e => String.eqb (fst e) jwt) (tokens ++ Demo.tokens).

(** [int] on the one numeric string used here. *)
Definition int_of_text (s : string) : option Z :=
  if String.eqb s "2000" then Some 2000 else None.

(** The arguments the model takes: a string, a list of strings, and for
    the expiry [None], an integer, a boolean, a float without fractional
    part or a string that reads as an integer. *)
Definition accepts (a : AccessToken) : bool :=
  is_str (client_id a)
  && match scopes a with PyList l => forallb is_str l | _ => false end
  && match expires_at a with
     | PyNone | PyInt _ | PyBool _ => true
     | PyFloat (FFin q) => Z.rem (Qnum q) (Z.pos (Qden q)) =? 0
     | PyStr s => match int_of_text s with Some _ => true | None => false end
     | _ => false
     end.

#[local] Instance world : Externals :=
  {| Key := nat;
     int_of_str := int_of_text;
     jws_segments := segments;
     crypto_verify := Demo.verify_with;
     fetch_response := Demo.responses;
     utcnow := 1000;
     AccessToken_validates := accepts |}.

Definition warm : @client_state world :=
  @Build_client_state world (Some (KeySet [Demo.k1])) 1.

End Demo3.

(** ** A world whose endpoint answers [null] *)

Module Demo4.

Definition null_body (uri : string) (n : nat)
  : result (option (jwks_document nat)) :=
  Ok None.

#[local] Instance world : Externals :=
  {| Key := nat;
     int_of_str := fun _ => None;
     jws_segments := Demo.segments;
     crypto_verify := Demo.verify_with;
     fetch_response := null_body;
     utcnow := 1000;
     AccessToken_validates := Demo.well_typed |}.

Definition warm : @client_state world :=
  @Build_client_state world (Some (KeySet [Demo.k1])) 1.

End Demo4.

(** ** More vocabulary *)

Module Spec2.

(** The client at [st'] is the client at [st], or it has made requests
    since and its cache holds the outcome of the latest one: the document
    received, or nothing when the request failed or the document was
    [null]. *)
Definition cache_follows `{Externals} (uri : string)
  (st st' : client_state) : Prop :=
  st' = st \/
  ((requests st < requests st')%nat /\
   jwk_set_cache st' =
     match fetch_response uri (requests st' - 1) with
     | Ok (Some d) => Some d
     | Ok None | Raise _ => None
     end).

(** A word of [str.split()]: not empty, no whitespace in it. *)
Definition clean_word (w : string) : Prop :=
  w <> EmptyString /\ forall c, In c (chars w) -> is_space c = false.

(** A video identifier: 11 characters of [[0-9A-Za-z_-]]. *)
Definition valid_id (id : string) : Prop :=
  String.length id = 11%nat /\
  forall c, In c (chars id) -> is_id_char c = true.

(** [id] stands in [url] right after a ["v="] or a ["/"]. *)
Definition id_occurs (url id : string) : Prop :=
  exists pre rest,
    url = pre ++ "v=" ++ id ++ rest \/ url = pre ++ "/" ++ id ++ rest.

End Spec2.

Export Spec2.

(** ** Running the verifier *)

Example run_full :
  Demo.run "full" Demo.warm =
  (Some {| token := "full"; client_id := PyStr "X";
           scopes := PyList [PyStr "a"; PyStr "b"; PyStr "c"];
           expires_at := PyInt 2000; resource := "api" |}, Demo.warm).
Proof. reflexivity. Qed.

Example run_cold :
  Demo.run "full" Demo.cold =
  (Some {| token := "full"; client_id := PyStr "X";
           scopes := PyList [PyStr "a"; PyStr "b"; PyStr "c"];
           expires_at := PyInt 2000; resource := "api" |}, Demo.warm).
Proof. reflexivity. Qed.

Example run_expired : Demo.run "expired" Demo.warm = (None, Demo.warm).
Proof. reflexivity. Qed.

Example run_malformed : Demo.run "not a token" Demo.warm = (None, Demo.warm).
Proof. reflexivity. Qed.

Example split_abc : split "a b c" = ["a"; "b"; "c"].
Proof. reflexivity. Qed.

Example split_runs : split "  read:x   write:y " = ["read:x"; "write:y"].
Proof. reflexivity. Qed.

(** ** Lemmas on the library calls *)

Section Facts.
Context `{Externals}.

Lemma bind_Ok {A B} (m : result A) (k : A -> result B) (b : B) :
  m ≫= k = Ok b -> exists a, m = Ok a /\ k a = Ok b.
Proof. destruct m as [a|e]; simpl; [eauto | discriminate]. Qed.

Lemma when_Ok (b : bool) (c : result unit) :
  when b c = Ok tt <-> (b = true -> c = Ok tt).
Proof.
  destruct b; simpl; split; auto; intros; try discriminate; reflexivity.
Qed.

Lemma result_unit_Ok (c : result unit) (u : unit) : c = Ok u -> c = Ok tt.
Proof. destruct u. auto. Qed.

(** What a successful [_validate_claims] has checked. *)
Lemma _validate_claims_Ok payload o aud iss leeway :
  _validate_claims payload o aud iss leeway = Ok tt <->
  when (contains payload "iat" && verify_iat o)
       (_validate_iat payload utcnow leeway) = Ok tt /\
  when (contains payload "nbf" && verify_nbf o)
       (_validate_nbf payload utcnow leeway) = Ok tt /\
  when (contains payload "exp" && verify_exp o)
       (_validate_exp payload utcnow leeway) = Ok tt /\
  when (verify_iss o) (_validate_iss payload iss) = Ok tt /\
  when (verify_aud o) (_validate_aud payload aud (strict_aud o)) = Ok tt /\
  when (verify_sub o) (_validate_sub payload) = Ok tt /\
  when (verify_jti o) (_validate_jti payload) = Ok tt.
Proof.
  unfold _validate_claims. split.
  - intros Hc.
    repeat match type of Hc with
           | _ ≫= _ = Ok _ =>
               apply bind_Ok in Hc; destruct Hc as ([] & ? & Hc)
           end.
    tauto.
  - intros (-> & -> & -> & -> & -> & -> & ->). reflexivity.
Qed.

(** A successful [decode] under the options of [verify_token]. *)
Lemma decode_Ok jwt k algs aud iss payload :
  decode jwt k algs aud iss decode_options = Ok payload <->
  exists j,
    jws_segments jwt = Some j /\
    jws_payload j = Some payload /\
    b64_is_false (jws_header j) = false /\
    _verify_signature j k algs = Ok tt /\
    _validate_claims payload decode_options aud iss 0 = Ok tt.
Proof.
  unfold decode, _load, _decode_payload. simpl verify_signature. simpl andb.
  split.
  - destruct algs as [|a algs]; [discriminate|].
    destruct (jws_segments jwt) as [j|]; [|discriminate].
    intros Hd'. exists j. simpl in Hd'.
    destruct (b64_is_false (jws_header j)); [discriminate|].
    apply bind_Ok in Hd'. destruct Hd' as ([] & Hsig & Hd').
    apply bind_Ok in Hd'. destruct Hd' as (p & Hp & Hd').
    apply bind_Ok in Hd'. destruct Hd' as ([] & Hc & Hd').
    injection Hd' as ->.
    destruct (jws_payload j); [|discriminate]. injection Hp as ->.
    repeat split; auto.
  - intros (j & Hj & Hp & Hb & Hsig & Hc).
    assert (algs <> []) as Hne.
    { intros ->. unfold _verify_signature in Hsig.
      destruct (jws_header j !! "alg") as [[]|]; try discriminate.
      simpl in Hsig. rewrite orb_true_r in Hsig. discriminate. }
    destruct algs as [|a algs]; [congruence|].
    rewrite Hj. simpl. rewrite Hb. simpl in Hsig |- *. rewrite Hsig. simpl.
    rewrite Hp. simpl. rewrite Hc. reflexivity.
Qed.

(** A passed signature check: the declared algorithm is a listed one,
    is not ["none"], and the key verifies the signature under it. *)
Lemma _verify_signature_Ok j k algs :
  _verify_signature j k algs = Ok tt <->
  exists a,
    jws_header j !! "alg" = Some (PyStr a) /\
    In a algs /\ a <> "none" /\ a <> EmptyString /\
    crypto_verify a k (jws_signing_input j) (jws_signature j) = Ok true.
Proof.
  unfold _verify_signature, alg_verify. split.
  - destruct (jws_header j !! "alg") as [[]|]; try discriminate.
    simpl truthy.
    destruct (String.eqb_spec s EmptyString); simpl; [discriminate|].
    destruct (existsb (String.eqb s) algs) eqn:Hin; simpl; [|discriminate].
    destruct (String.eqb_spec s "none"); simpl; [discriminate|].
    intros Hv. exists s. repeat split; auto.
    + apply existsb_exists in Hin. destruct Hin as (x & Hx & Heq).
      apply String.eqb_eq in Heq. subst. exact Hx.
    + destruct (crypto_verify s k _ _) as [[]|]; simpl in Hv;
        congruence.
  - intros (a & -> & Hin & Hnone & Hne & Hv). simpl truthy.
    destruct (String.eqb_spec a EmptyString); [contradiction|]. simpl.
    assert (existsb (String.eqb a) algs = true) as ->.
    { apply existsb_exists. exists a. split; auto. apply String.eqb_refl. }
    simpl. destruct (String.eqb_spec a "none"); [contradiction|].
    rewrite Hv. reflexivity.
Qed.

Lemma int_claim_Ok v e z :
  int_claim v e = Ok z <-> int int_of_str v = Ok z.
Proof.
  unfold int_claim. destruct (int int_of_str v) as [z'|[]]; split; congruence.
Qed.

Lemma Qle_bool_false (x y : Q) : Qle_bool x y = false <-> (y < x)%Q.
Proof.
  split.
  - intros Hb. apply Qnot_le_lt. intros Hle.
    apply Qle_bool_iff in Hle. congruence.
  - intros Hlt. destruct (Qle_bool x y) eqn:Hb; [|reflexivity].
    apply Qle_bool_iff in Hb. exfalso. exact (Qlt_not_le _ _ Hlt Hb).
Qed.

Lemma Qminus_zero (x : Q) : (x - 0 == x)%Q.
Proof. ring. Qed.

(** The expiry check, at leeway zero: [exp] is an integer after now. *)
Lemma _validate_exp_Ok payload :
  _validate_exp payload utcnow 0 = Ok tt <->
  exists z, int int_of_str (get payload "exp") = Ok z /\ (utcnow < inject_Z z)%Q.
Proof.
  unfold _validate_exp. split.
  - intros Hv. apply bind_Ok in Hv. destruct Hv as (z & Hz & Hv).
    apply int_claim_Ok in Hz. exists z. split; [exact Hz|].
    destruct (Qle_bool (inject_Z z) (utcnow - 0)) eqn:Hb; [discriminate|].
    apply Qle_bool_false in Hb. rewrite Qminus_zero in Hb. exact Hb.
  - intros (z & Hz & Hlt). apply (int_claim_Ok _ DecodeError) in Hz.
    rewrite Hz. simpl.
    assert (Qle_bool (inject_Z z) (utcnow - 0) = false) as ->; [|reflexivity].
    apply Qle_bool_false. rewrite Qminus_zero. exact Hlt.
Qed.

(** A token whose [exp] is at or before now fails the expiry check. *)
Lemma _validate_exp_expired payload z :
  int int_of_str (get payload "exp") = Ok z -> (inject_Z z <= utcnow)%Q ->
  _validate_exp payload utcnow 0 = Raise ExpiredSignatureError.
Proof.
  intros Hz Hle. unfold _validate_exp.
  apply (int_claim_Ok _ DecodeError) in Hz. rewrite Hz. simpl.
  assert (Qle_bool (inject_Z z) (utcnow - 0) = true) as ->; [|reflexivity].
  apply Qle_bool_iff. rewrite Qminus_zero. exact Hle.
Qed.

(** The issued-at check, at leeway zero: [iat] is an integer not after
    now. *)
Lemma _validate_iat_Ok payload :
  _validate_iat payload utcnow 0 = Ok tt <->
  exists z, int int_of_str (get payload "iat") = Ok z /\ (inject_Z z <= utcnow)%Q.
Proof.
  unfold _validate_iat. split.
  - intros Hv. apply bind_Ok in Hv. destruct Hv as (z & Hz & Hv).
    apply int_claim_Ok in Hz. exists z. split; [exact Hz|].
    destruct (Qle_bool (inject_Z z) (utcnow + 0)) eqn:Hb; [|discriminate].
    apply Qle_bool_iff in Hb. rewrite Qplus_0_r in Hb. exact Hb.
  - intros (z & Hz & Hle). apply (int_claim_Ok _ InvalidIssuedAtError) in Hz.
    rewrite Hz. simpl.
    assert (Qle_bool (inject_Z z) (utcnow + 0) = true) as ->; [|reflexivity].
    apply Qle_bool_iff. rewrite Qplus_0_r. exact Hle.
Qed.

(** The issuer check: the claim is the expected string. *)
Lemma _validate_iss_Ok payload iss :
  _validate_iss payload iss = Ok tt <-> payload !! "iss" = Some (PyStr iss).
Proof.
  unfold _validate_iss, eq_str. split.
  - destruct (payload !! "iss") as [[]|]; try discriminate.
    destruct (String.eqb_spec s iss); [congruence | discriminate].
  - intros ->. rewrite String.eqb_refl. reflexivity.
Qed.

Lemma existsb_eq_str_In audience l :
  existsb (eq_str audience) l = true <-> In (PyStr audience) l.
Proof.
  rewrite existsb_exists. split.
  - intros (x & Hx & Heq). destruct x; try discriminate.
    apply String.eqb_eq in Heq. subst. exact Hx.
  - intros Hin. exists (PyStr audience). split; [exact Hin|].
    apply String.eqb_refl.
Qed.

Lemma existsb_not_str l :
  existsb (fun c => negb (is_str c)) l = false <->
  Forall (fun c => is_str c = true) l.
Proof.
  induction l as [|c l IH]; simpl.
  - split; auto.
  - rewrite orb_false_iff, IH, negb_false_iff. split.
    + intros [Hc Hl]. constructor; assumption.
    + intros Hf. inversion Hf; subst. split; assumption.
Qed.

(** The audience check as [verify_token] runs it (not strict): a passed
    check means the claim matches in the sense of [aud_matches]. *)
Lemma _validate_aud_Ok payload audience :
  _validate_aud payload audience false = Ok tt ->
  exists v, payload !! "aud" = Some v /\ aud_matches audience v.
Proof.
  unfold _validate_aud, contains, get.
  destruct (payload !! "aud") as [v|]; simpl; [|discriminate].
  destruct (truthy v); simpl; [|discriminate].
  intros Hv. exists v. split; [reflexivity|].
  destruct v; try discriminate.
  - simpl in Hv. rewrite orb_false_r in Hv.
    destruct (String.eqb_spec s audience); [|discriminate].
    left. congruence.
  - destruct (existsb (fun c => negb (is_str c)) l) eqn:Hs; [discriminate|].
    destruct (existsb (eq_str audience) l) eqn:Hin; [|discriminate].
    right. exists l. split; [reflexivity|]. split.
    + apply existsb_not_str. exact Hs.
    + apply existsb_eq_str_In. exact Hin.
Qed.

(** Conversely a non-empty matching claim passes. *)
Lemma _validate_aud_intro payload audience v :
  payload !! "aud" = Some v -> truthy v = true -> aud_matches audience v ->
  _validate_aud payload audience false = Ok tt.
Proof.
  intros Hv Ht Hm. unfold _validate_aud, contains, get. rewrite Hv. simpl.
  rewrite Ht. simpl. destruct Hm as [->|(l & -> & Hs & Hin)].
  - simpl. rewrite String.eqb_refl. reflexivity.
  - apply existsb_not_str in Hs. rewrite Hs.
    apply existsb_eq_str_In in Hin. rewrite Hin. reflexivity.
Qed.

(** *** The key-set client *)

Lemma fetch_data_requests uri st :
  requests (snd (fetch_data uri st)) = S (requests st).
Proof. reflexivity. Qed.

(** Served from the cache, the key set costs no request and leaves the
    client as it was. *)
Lemma get_jwk_set_cached uri st d :
  jwk_set_cache st = Some d -> snd (get_jwk_set uri false st) = st.
Proof.
  intros Hc. unfold get_jwk_set. rewrite Hc.
  destruct d as [|[|? ?]]; reflexivity.
Qed.


Lemma get_signing_keys_state uri refresh st :
  snd (get_signing_keys uri refresh st) = snd (get_jwk_set uri refresh st).
Proof.
  unfold get_signing_keys.
  destruct (get_jwk_set uri refresh st) as [[keys|e] st']; simpl;
    [|reflexivity].
  destruct (List.filter is_signing_key keys); reflexivity.
Qed.


Lemma get_signing_keys_cached uri st d :
  jwk_set_cache st = Some d ->
  get_signing_keys uri false st =
  (match d with
   | NotAnObject => Raise PyJWKClientError
   | KeySet [] => Raise PyJWKSetError
   | KeySet keys =>
       match List.filter is_signing_key keys with
       | [] => Raise PyJWKClientError
       | signing_keys => Ok signing_keys
       end
   end, st).
Proof.
  intros Hc. unfold get_signing_keys, get_jwk_set. rewrite Hc.
  destruct d as [|[|k keys]]; simpl; try reflexivity.
  destruct (if is_signing_key k then _ else _); reflexivity.
Qed.





(** *** The verifier *)

(** [verify_token] leaves the client as key resolution left it. *)
Lemma verify_token_state self jwt st :
  snd (verify_token self jwt st) =
  snd (get_signing_key_from_jwt (jwks_url self) jwt st).
Proof.
  unfold verify_token, verify_token_body.
  destruct (get_signing_key_from_jwt (jwks_url self) jwt st)
    as [[sk|e] st1]; simpl; [|reflexivity].
  destruct (decode jwt (key sk) _ _ _ _) as [payload|e]; simpl; [|reflexivity].
  destruct (build_result self jwt payload) as [a|e]; simpl; [reflexivity|].
  destruct (is_InvalidTokenError e); reflexivity.
Qed.

(** The one way to an [AccessToken]: the key resolves, [decode] returns
    and the result builds. *)
Lemma verify_token_Some self jwt st r st' :
  verify_token self jwt st = (Some r, st') <->
  exists signing_key payload,
    get_signing_key_from_jwt (jwks_url self) jwt st = (Ok signing_key, st') /\
    decode jwt (key signing_key) (algorithms self) (audience self)
      (issuer self) decode_options = Ok payload /\
    build_result self jwt payload = Ok r.
Proof.
  unfold verify_token, verify_token_body. split.
  - destruct (get_signing_key_from_jwt (jwks_url self) jwt st)
      as [[sk|e] st1]; simpl; [|discriminate].
    destruct (decode jwt (key sk) _ _ _ _) as [payload|e] eqn:Hd; simpl;
      [|discriminate].
    destruct (build_result self jwt payload) as [a|e] eqn:Hb; simpl.
    + intros [= -> ->]. eauto.
    + destruct (is_InvalidTokenError e); discriminate.
  - intros (sk & payload & -> & -> & ->). reflexivity.
Qed.

(** Everything else is [None]. *)
Lemma verify_token_None self jwt st :
  (forall r, fst (verify_token self jwt st) <> Some r) ->
  fst (verify_token self jwt st) = None.
Proof. destruct (fst (verify_token self jwt st)); [intros Hn; destruct (Hn a eq_refl) | reflexivity]. Qed.

(** The payload [decode] returns is the token's own. *)
Lemma decode_payload jwt k algs aud iss payload j :
  decode jwt k algs aud iss decode_options = Ok payload ->
  jws_segments jwt = Some j -> jws_payload j = Some payload.
Proof.
  intros Hd Hj. apply decode_Ok in Hd. destruct Hd as (j' & Hj' & Hp & _).
  congruence.
Qed.

(** The fields of a built result. *)
Lemma build_result_Ok self jwt payload r :
  build_result self jwt payload = Ok r <->
  exists scopes expires,
    extract_scopes payload = Ok scopes /\
    AccessToken_validates
      {| token := jwt; client_id := resolve_client_id payload;
         scopes := scopes; expires_at := get payload "exp";
         resource := audience self |} = true /\
    pydantic_int_or_none (get payload "exp") = Ok expires /\
    r = {| token := jwt; client_id := resolve_client_id payload;
           scopes := scopes; expires_at := expires;
           resource := audience self |}.
Proof.
  unfold build_result, new_AccessToken. split.
  - intros Hb. apply bind_Ok in Hb. destruct Hb as (sc & Hsc & Hb).
    destruct (AccessToken_validates _) eqn:Hv; [|discriminate].
    apply bind_Ok in Hb. destruct Hb as (e & He & Hb). simpl in He, Hb.
    injection Hb as <-. exists sc, e. auto.
  - intros (sc & e & -> & Hv & He & ->). simpl. rewrite Hv. simpl.
    rewrite He. reflexivity.
Qed.

(** An accepted token, its payload and its result. *)
Lemma verify_token_accepted self jwt st r st' j :
  verify_token self jwt st = (Some r, st') ->
  jws_segments jwt = Some j ->
  exists signing_key payload,
    jws_payload j = Some payload /\
    get_signing_key_from_jwt (jwks_url self) jwt st = (Ok signing_key, st') /\
    _verify_signature j (key signing_key) (algorithms self) = Ok tt /\
    _validate_claims payload decode_options (audience self) (issuer self) 0
      = Ok tt /\
    build_result self jwt payload = Ok r.
Proof.
  intros Hv Hj. apply verify_token_Some in Hv.
  destruct Hv as (sk & payload & Hk & Hd & Hb).
  apply decode_Ok in Hd. destruct Hd as (j' & Hj' & Hp & _ & Hs & Hc).
  assert (j' = j) as -> by congruence.
  exists sk, payload. auto.
Qed.

End Facts.

(** ** Properties of [verify_token] *)

(** The checks behind an accepted token, on its own header and payload. *)
Lemma accepted_checks `{Externals} self jwt st r st' j :
  verify_token self jwt st = (Some r, st') ->
  jws_segments jwt = Some j ->
  exists signing_key payload,
    jws_payload j = Some payload /\
    get_signing_key_from_jwt (jwks_url self) jwt st = (Ok signing_key, st') /\
    _verify_signature j (key signing_key) (algorithms self) = Ok tt /\
    _validate_aud payload (audience self) false = Ok tt /\
    _validate_iss payload (issuer self) = Ok tt /\
    when (contains payload "iat") (_validate_iat payload utcnow 0) = Ok tt /\
    when (contains payload "exp") (_validate_exp payload utcnow 0) = Ok tt.
Proof.
  intros Hv Hj.
  destruct (verify_token_accepted self jwt st r st' j Hv Hj)
    as (sk & payload & Hp & Hk & Hs & Hc & _).
  apply _validate_claims_Ok in Hc.
  destruct Hc as (Hiat & _ & Hexp & Hiss & Haud & _).
  simpl in Hiat, Hexp, Hiss, Haud. rewrite andb_true_r in Hiat, Hexp.
  exists sk, payload. repeat split; assumption.
Qed.

(** An accepted token has loaded. *)
Lemma accepted_segments `{Externals} self jwt st r st' :
  verify_token self jwt st = (Some r, st') ->
  exists j, jws_segments jwt = Some j.
Proof.
  intros Hv. apply verify_token_Some in Hv.
  destruct Hv as (sk & payload & _ & Hd & _).
  apply decode_Ok in Hd. destruct Hd as (j & Hj & _). eauto.
Qed.

(** C1, as the code has it.  Whenever [verify_token] returns a result,
    the key was resolved and, on the token's own header and payload, the
    signature check, the audience check and the issuer check of [decode]
    each returned without raising, and so did the issued-at check if the
    payload has an ["iat"] claim and the expiry check if it has an
    ["exp"] claim; for a payload without the claim that check is not
    run. *)
Theorem verify_token_only_after_checks `{Externals} self jwt st r st' :
  verify_token self jwt st = (Some r, st') ->
  exists j signing_key payload,
    jws_segments jwt = Some j /\
    jws_payload j = Some payload /\
    get_signing_key_from_jwt (jwks_url self) jwt st = (Ok signing_key, st') /\
    _verify_signature j (key signing_key) (algorithms self) = Ok tt /\
    _validate_aud payload (audience self) false = Ok tt /\
    _validate_iss payload (issuer self) = Ok tt /\
    when (contains payload "iat") (_validate_iat payload utcnow 0) = Ok tt /\
    when (contains payload "exp") (_validate_exp payload utcnow 0) = Ok tt.
Proof.
  intros Hv. destruct (accepted_segments self jwt st r st' Hv) as (j & Hj).
  destruct (accepted_checks self jwt st r st' j Hv Hj)
    as (sk & payload & Hchecks).
  exists j, sk, payload. split; [exact Hj | exact Hchecks].
Qed.

Lemma verify_token_only_after_checks_witness :
  exists j signing_key payload,
    Demo.segments "full" = Some j /\
    jws_payload j = Some payload /\
    get_signing_key_from_jwt (H := Demo.world)
      (jwks_url Demo.verifier) "full" Demo.warm = (Ok signing_key, Demo.warm) /\
    _verify_signature (H := Demo.world) j (key signing_key)
      (algorithms Demo.verifier) = Ok tt /\
    _validate_aud payload (audience Demo.verifier) false = Ok tt /\
    _validate_iss payload (issuer Demo.verifier) = Ok tt /\
    when (contains payload "iat")
         (_validate_iat (H := Demo.world) payload 1000 0) = Ok tt /\
    when (contains payload "exp")
         (_validate_exp (H := Demo.world) payload 1000 0) = Ok tt.
Proof.
  apply (verify_token_only_after_checks (H := Demo.world)
           Demo.verifier "full" Demo.warm
           {| token := "full"; client_id := PyStr "X";
              scopes := PyList [PyStr "a"; PyStr "b"; PyStr "c"];
              expires_at := PyInt 2000; resource := "api" |} Demo.warm).
  reflexivity.
Defined.

(** C1 as stated fails: a token with neither ["iat"] nor ["exp"] is
    accepted, although neither the issued-at check nor the expiry check
    passes on its payload; both are skipped. *)
Lemma checks_skipped_counterexample :
  Demo.segments "no-exp"
    = Some (Demo.signed (Demo.header "RS256" "k1") Demo.p_no_exp) /\
  (exists r, Demo.run "no-exp" Demo.warm = (Some r, Demo.warm)) /\
  contains Demo.p_no_exp "iat" = false /\
  contains Demo.p_no_exp "exp" = false /\
  _validate_iat (H := Demo.world) Demo.p_no_exp 1000 0 <> Ok tt /\
  _validate_exp (H := Demo.world) Demo.p_no_exp 1000 0 <> Ok tt.
Proof.
  split; [reflexivity|]. split; [eexists; reflexivity|].
  split; [reflexivity|]. split; [reflexivity|].
  split; discriminate.
Qed.

(** C2.  A token whose header declares an algorithm outside the accepted
    set is rejected, whatever the signature primitives say about its
    signature; so is every token declaring ["none"], listed or not; and
    the accepted set of a verifier built without algorithms is the single
    ["RS256"]. *)
Theorem unlisted_algorithm_rejected `{Externals} self jwt st j alg :
  jws_segments jwt = Some j ->
  jws_header j !! "alg" = Some alg ->
  (forall a, alg = PyStr a -> ~ In a (algorithms self) \/ a = "none") ->
  fst (verify_token self jwt st) = None /\
  (forall d aud, algorithms (Auth0TokenVerifier_init d aud None) = ["RS256"]) /\
  (forall d aud, algorithms (Auth0TokenVerifier_init d aud (Some [])) = ["RS256"]).
Proof.
  intros Hj Halg Hout. split; [|split; reflexivity].
  apply verify_token_None. intros r Hr.
  destruct (verify_token self jwt st) as [o st'] eqn:Hv. simpl in Hr. subst o.
  destruct (verify_token_accepted self jwt st r st' j Hv Hj)
    as (sk & payload & _ & _ & Hs & _).
  apply _verify_signature_Ok in Hs.
  destruct Hs as (a & Ha & Hin & Hnone & _).
  rewrite Halg in Ha. injection Ha as ->.
  destruct (Hout a eq_refl); contradiction.
Qed.

Lemma unlisted_algorithm_rejected_witness :
  fst (Demo.run "hs256" Demo.warm) = None /\
  Demo.verify_with "HS256" 1%nat "input" "signed" = Ok true.
Proof.
  split; [|reflexivity].
  refine (proj1 (unlisted_algorithm_rejected (H := Demo.world)
                   Demo.verifier "hs256" Demo.warm
                   (Demo.signed (Demo.header "HS256" "k1") Demo.p_full)
                   (PyStr "HS256") eq_refl eq_refl _)).
  intros a [= <-]. left. vm_compute. intros [Hf|[]]. discriminate Hf.
Defined.

(** *** What [build_result] computes *)

Lemma extract_scopes_Ok `{Externals} payload sc :
  extract_scopes payload = Ok sc <->
  (forall v, payload !! "scope" = Some v -> is_str v = true) /\
  sc = granted_scopes payload.
Proof.
  unfold extract_scopes, granted_scopes, attr_split.
  destruct (payload !! "scope") as [v|].
  - split.
    + intros Hs. destruct v; try discriminate. injection Hs as <-.
      split; [|reflexivity]. intros v [= <-]. reflexivity.
    + intros [Hstr ->]. specialize (Hstr v eq_refl).
      destruct v; try discriminate. reflexivity.
  - destruct (payload !! "permissions"); split.
    + intros [= <-]. split; [discriminate | reflexivity].
    + intros [_ ->]. reflexivity.
    + intros [= <-]. split; [discriminate | reflexivity].
    + intros [_ ->]. reflexivity.
Qed.

Lemma resolve_client_id_by_truth `{Externals} payload :
  resolve_client_id payload = client_id_by_truth payload.
Proof.
  unfold resolve_client_id, client_id_by_truth, get, get_or.
  destruct (payload !! "azp") as [azp|]; simpl; reflexivity.
Qed.

(** What the model makes of the expiry argument. *)
Lemma pydantic_int_or_none_exp `{Externals} (payload : gmap string pyval) e :
  pydantic_int_or_none (get payload "exp") = Ok e <->
  e = expiry_of payload /\
  (forall v, payload !! "exp" = Some v ->
     v = PyNone \/ exists z, int int_of_str v = Ok z).
Proof.
  unfold pydantic_int_or_none, expiry_of, get.
  destruct (payload !! "exp") as [v|]; simpl.
  - assert (Hcase : v = PyNone \/
                    (v <> PyNone /\ exists z, int int_of_str v = Ok z) \/
                    (v <> PyNone /\ exists x, int int_of_str v = Raise x)).
    { destruct v as [|b|z|f|s|l|d]; try (left; reflexivity); right;
        (destruct (int int_of_str _) as [z'|x] eqn:Hi;
         [left; split; [discriminate | eauto]
         |right; split; [discriminate | eauto]]). }
    destruct Hcase as [->|[[Hn (z & Hz)]|[Hn (x & Hx)]]].
    + simpl. split; [intros [= <-]; split; [reflexivity | intros ? [= <-]; eauto]
                    | intros [-> _]; reflexivity].
    + rewrite Hz.
      assert (Hp : match v with
                   | PyNone => Ok PyNone
                   | _ => Ok (PyInt z)
                   end = Ok (PyInt z)) by (destruct v; congruence).
      rewrite Hp.
      split; [intros [= <-]; split; [reflexivity | intros ? [= <-]; eauto]
             | intros [-> _]; reflexivity].
    + rewrite Hx.
      assert (Hp : match v with
                   | PyNone => Ok PyNone
                   | _ => Raise ValidationError
                   end = Raise ValidationError :> result pyval)
        by (destruct v; congruence).
      rewrite Hp.
      split; [discriminate|].
      intros [_ Hv]. destruct (Hv _ eq_refl) as [?|(z & Hz)]; congruence.
  - split; [intros [= <-]; split; [reflexivity | discriminate]
           | intros [-> _]; reflexivity].
Qed.

(** The result of an accepted token is [accepted_result]. *)
Lemma build_result_accepted `{Externals} self jwt payload r :
  build_result self jwt payload = Ok r <->
  (forall v, payload !! "scope" = Some v -> is_str v = true) /\
  r = accepted_result self jwt payload /\
  AccessToken_validates (AccessToken_arguments self jwt payload) = true /\
  (forall v, payload !! "exp" = Some v ->
     v = PyNone \/ exists z, int int_of_str v = Ok z).
Proof.
  rewrite build_result_Ok. unfold accepted_result, AccessToken_arguments.
  rewrite <- resolve_client_id_by_truth.
  change (match payload !! "exp" with
          | Some exp => exp
          | None => PyNone
          end) with (get payload "exp").
  split.
  - intros (sc & e & Hsc & Hv & He & ->). apply extract_scopes_Ok in Hsc.
    destruct Hsc as [Hstr ->]. apply pydantic_int_or_none_exp in He.
    destruct He as [-> Hexp]. auto.
  - intros (Hstr & -> & Hv & Hexp).
    exists (granted_scopes payload), (expiry_of payload).
    split; [apply extract_scopes_Ok; auto|]. split; [exact Hv|].
    split; [apply pydantic_int_or_none_exp; auto | reflexivity].
Qed.

(** Key resolution has read the header: a resolved key means the token
    loads. *)
Lemma get_signing_key_from_jwt_Ok `{Externals} uri jwt st sk st' j :
  get_signing_key_from_jwt uri jwt st = (Ok sk, st') ->
  jws_segments jwt = Some j ->
  b64_is_false (jws_header j) = false.
Proof.
  unfold get_signing_key_from_jwt, decode_unverified_header, _load.
  intros Hk Hj. rewrite Hj in Hk. simpl in Hk.
  destruct (b64_is_false (jws_header j)); [discriminate | reflexivity].
Qed.

(** Sufficient conditions of acceptance. *)
Lemma verify_token_accepts `{Externals} self jwt st sk st' j payload :
  get_signing_key_from_jwt (jwks_url self) jwt st = (Ok sk, st') ->
  jws_segments jwt = Some j -> jws_payload j = Some payload ->
  _verify_signature j (key sk) (algorithms self) = Ok tt ->
  _validate_claims payload decode_options (audience self) (issuer self) 0
    = Ok tt ->
  (forall v, payload !! "scope" = Some v -> is_str v = true) ->
  AccessToken_validates (AccessToken_arguments self jwt payload) = true ->
  verify_token self jwt st = (Some (accepted_result self jwt payload), st').
Proof.
  intros Hk Hj Hp Hs Hc Hstr Hv. apply verify_token_Some.
  exists sk, payload. split; [exact Hk|]. split.
  - apply decode_Ok. exists j.
    pose proof (get_signing_key_from_jwt_Ok _ _ _ _ _ _ Hk Hj) as Hb.
    repeat split; assumption.
  - apply build_result_accepted. repeat split; auto.
    intros v Hexp. right.
    apply _validate_claims_Ok in Hc. destruct Hc as (_ & _ & Hchk & _).
    unfold contains in Hchk. rewrite Hexp in Hchk. simpl in Hchk.
    apply _validate_exp_Ok in Hchk. destruct Hchk as (z & Hz & _).
    unfold get in Hz. rewrite Hexp in Hz. eauto.
Qed.

(** C3, as the code has it.  The audience claim of an accepted token is
    the expected audience or a list of strings that contains it, and its
    issuer claim is the verifier's issuer string; a token whose audience
    claim is neither is rejected, whatever its signature; and the issuer
    of a verifier is ["https://" ++ domain ++ "/"]. *)
Theorem accepted_audience_and_issuer `{Externals} self jwt st j payload :
  jws_segments jwt = Some j ->
  jws_payload j = Some payload ->
  (forall r st', verify_token self jwt st = (Some r, st') ->
     (exists v, payload !! "aud" = Some v /\ aud_matches (audience self) v) /\
     payload !! "iss" = Some (PyStr (issuer self))) /\
  ((forall v, payload !! "aud" = Some v -> ~ aud_matches (audience self) v) ->
   fst (verify_token self jwt st) = None) /\
  (forall d aud algs,
     issuer (Auth0TokenVerifier_init d aud algs) = "https://" ++ d ++ "/").
Proof.
  intros Hj Hp.
  assert (Hacc : forall r st', verify_token self jwt st = (Some r, st') ->
     (exists v, payload !! "aud" = Some v /\ aud_matches (audience self) v) /\
     payload !! "iss" = Some (PyStr (issuer self))).
  { intros r st' Hv.
    destruct (accepted_checks self jwt st r st' j Hv Hj)
      as (sk & p' & Hp' & _ & _ & Haud & Hiss & _).
    assert (p' = payload) as -> by congruence.
    split; [apply _validate_aud_Ok; exact Haud|].
    apply _validate_iss_Ok. exact Hiss. }
  split; [exact Hacc|]. split; [|reflexivity].
  intros Hno. apply verify_token_None. intros r Hr.
  destruct (verify_token self jwt st) as [o st'] eqn:Hv. simpl in Hr. subst o.
  destruct (Hacc r st' eq_refl) as [(v & Hv' & Hm) _].
  exact (Hno v Hv' Hm).
Qed.

Lemma accepted_audience_and_issuer_witness :
  (exists v, Demo.p_aud_list !! "aud" = Some v /\ aud_matches "api" v) /\
  Demo.p_aud_list !! "iss" = Some (PyStr "https://tenant.example/").
Proof.
  exact (proj1 (accepted_audience_and_issuer (H := Demo.world)
                  Demo.verifier "aud-list" Demo.warm
                  (Demo.signed (Demo.header "RS256" "k1") Demo.p_aud_list)
                  Demo.p_aud_list eq_refl eq_refl)
           (accepted_result (H := Demo.world) Demo.verifier "aud-list" Demo.p_aud_list)
           Demo.warm eq_refl).
Defined.

(** C3 as stated fails: a token whose audience claim is a list holding
    the expected audience next to another one is accepted, and that
    claim is not equal to the expected audience. *)
Lemma audience_equality_counterexample :
  Demo.segments "aud-list"
    = Some (Demo.signed (Demo.header "RS256" "k1") Demo.p_aud_list) /\
  (exists r, Demo.run "aud-list" Demo.warm = (Some r, Demo.warm)) /\
  Demo.p_aud_list !! "aud"
    = Some (PyList [PyStr "api"; PyStr "https://tenant.example/userinfo"]) /\
  ~ aud_equals (audience Demo.verifier)
      (PyList [PyStr "api"; PyStr "https://tenant.example/userinfo"]).
Proof.
  split; [reflexivity|]. split; [|split].
  - eexists. reflexivity.
  - reflexivity.
  - unfold aud_equals. discriminate.
Qed.

(** C4, as the code has it.  A token whose [exp] is at or before now is
    rejected.  A token whose [exp] is after now is accepted when its key
    resolves, its signature, audience, issuer and issued-at pass, and
    moreover its not-before, subject and token-identifier claims pass the
    checks [decode] runs by default, its ["scope"] claim, if any, is a
    string, and the fields of the result validate as the arguments of
    the [AccessToken] model. *)
Theorem expiry_decides `{Externals} self jwt st j payload v exp :
  jws_segments jwt = Some j ->
  jws_payload j = Some payload ->
  payload !! "exp" = Some v ->
  int int_of_str v = Ok exp ->
  ((inject_Z exp <= utcnow)%Q -> fst (verify_token self jwt st) = None) /\
  ((utcnow < inject_Z exp)%Q ->
   forall signing_key st',
     get_signing_key_from_jwt (jwks_url self) jwt st = (Ok signing_key, st') ->
     _verify_signature j (key signing_key) (algorithms self) = Ok tt ->
     _validate_aud payload (audience self) false = Ok tt ->
     _validate_iss payload (issuer self) = Ok tt ->
     when (contains payload "iat") (_validate_iat payload utcnow 0) = Ok tt ->
     when (contains payload "nbf") (_validate_nbf payload utcnow 0) = Ok tt ->
     _validate_sub payload = Ok tt ->
     _validate_jti payload = Ok tt ->
     (forall s, payload !! "scope" = Some s -> is_str s = true) ->
     AccessToken_validates (AccessToken_arguments self jwt payload) = true ->
     verify_token self jwt st
       = (Some (accepted_result self jwt payload), st')).
Proof.
  intros Hj Hp Hexp Hint.
  assert (Hget : get payload "exp" = v) by (unfold get; rewrite Hexp; reflexivity).
  split.
  - intros Hle. apply verify_token_None. intros r Hr.
    destruct (verify_token self jwt st) as [o st'] eqn:Hv. simpl in Hr. subst o.
    destruct (accepted_checks self jwt st r st' j Hv Hj)
      as (sk & p' & Hp' & _ & _ & _ & _ & _ & Hchk).
    assert (p' = payload) as -> by congruence.
    unfold contains in Hchk. rewrite Hexp in Hchk. simpl in Hchk.
    rewrite (_validate_exp_expired payload exp) in Hchk;
      [discriminate | rewrite Hget; exact Hint | exact Hle].
  - intros Hlt sk st' Hk Hs Haud Hiss Hiat Hnbf Hsub Hjti Hstr Hval.
    apply (verify_token_accepts self jwt st sk st' j payload); auto.
    apply _validate_claims_Ok. simpl. rewrite !andb_true_r.
    repeat split; auto.
    unfold contains. rewrite Hexp. simpl.
    apply _validate_exp_Ok. exists exp. rewrite Hget. auto.
Qed.

Lemma expiry_decides_witness :
  fst (Demo.run "expired" Demo.warm) = None /\
  Demo.run "full" Demo.warm
    = (Some (accepted_result (H := Demo.world) Demo.verifier "full" Demo.p_full), Demo.warm).
Proof.
  split.
  - refine (proj1 (expiry_decides (H := Demo.world) Demo.verifier "expired"
                     Demo.warm
                     (Demo.signed (Demo.header "RS256" "k1") Demo.p_expired)
                     Demo.p_expired (PyInt 1000) 1000
                     eq_refl eq_refl eq_refl eq_refl) _).
    vm_compute. discriminate.
  - refine (proj2 (expiry_decides (H := Demo.world) Demo.verifier "full"
                     Demo.warm
                     (Demo.signed (Demo.header "RS256" "k1") Demo.p_full)
                     Demo.p_full (PyInt 2000) 2000
                     eq_refl eq_refl eq_refl eq_refl) _ Demo.k1 Demo.warm
                  eq_refl eq_refl eq_refl eq_refl eq_refl eq_refl eq_refl
                  eq_refl _ eq_refl).
    + vm_compute. reflexivity.
    + intros s Hs. vm_compute in Hs. injection Hs as <-. reflexivity.
Defined.

(** C4 as stated fails: with the key resolved and the signature,
    audience, issuer, issued-at and expiry checks all passing, a token
    whose ["scope"] claim is a number is rejected. *)
Lemma valid_claims_rejected_counterexample :
  Demo.segments "scope-number"
    = Some (Demo.signed (Demo.header "RS256" "k1") Demo.p_scope_number) /\
  get_signing_key_from_jwt (H := Demo.world) (jwks_url Demo.verifier)
    "scope-number" Demo.warm = (Ok Demo.k1, Demo.warm) /\
  _verify_signature (H := Demo.world)
    (Demo.signed (Demo.header "RS256" "k1") Demo.p_scope_number)
    (key Demo.k1) (algorithms Demo.verifier) = Ok tt /\
  _validate_aud Demo.p_scope_number (audience Demo.verifier) false = Ok tt /\
  _validate_iss Demo.p_scope_number (issuer Demo.verifier) = Ok tt /\
  _validate_iat (H := Demo.world) Demo.p_scope_number 1000 0 = Ok tt /\
  _validate_exp (H := Demo.world) Demo.p_scope_number 1000 0 = Ok tt /\
  Demo.p_scope_number !! "scope" = Some (PyInt 5) /\
  Demo.run "scope-number" Demo.warm = (None, Demo.warm).
Proof. repeat split; reflexivity. Qed.

(** C5.  Every failure of a call ends in the one value [None]: whether
    key resolution raised, [decode] raised, or anything after them raised
    inside the outer [try], [verify_token] returns [None] and the state
    the client was left in; the exception is not part of what it
    returns. *)
Theorem verify_token_uniform_reject `{Externals} self jwt st e st' :
  get_signing_key_from_jwt (jwks_url self) jwt st = (Raise e, st') \/
  (exists signing_key,
     get_signing_key_from_jwt (jwks_url self) jwt st = (Ok signing_key, st') /\
     decode jwt (key signing_key) (algorithms self) (audience self)
       (issuer self) decode_options = Raise e) \/
  verify_token_body self jwt st = (Raise e, st') ->
  verify_token self jwt st = (None, st').
Proof.
  unfold verify_token, verify_token_body.
  intros [Hk | [(sk & Hk & Hd) | Hb]].
  - rewrite Hk. reflexivity.
  - rewrite Hk, Hd. reflexivity.
  - destruct (get_signing_key_from_jwt (jwks_url self) jwt st)
      as [[sk|e1] st1]; [|discriminate].
    destruct (decode jwt (key sk) _ _ _ _) as [payload|e2]; [|discriminate].
    destruct (build_result self jwt payload) as [a|e3]; [discriminate|].
    injection Hb as -> ->. destruct (is_InvalidTokenError e); reflexivity.
Qed.

Lemma verify_token_uniform_reject_witness :
  verify_token_body (H := Demo.world) Demo.verifier "scope-number" Demo.warm
    = (Raise AttributeError, Demo.warm) /\
  Demo.run "scope-number" Demo.warm = (None, Demo.warm).
Proof.
  split; [reflexivity|].
  apply (verify_token_uniform_reject (H := Demo.world) Demo.verifier
           "scope-number" Demo.warm AttributeError Demo.warm).
  right. right. reflexivity.
Defined.

(** *** Whitespace splitting *)

Lemma is_space_whitespace c : is_space c = true <-> whitespace c.
Proof.
  unfold is_space, whitespace. generalize (nat_of_ascii c) as n. intros n.
  cbv zeta. simpl In.
  rewrite !orb_true_iff, !andb_true_iff, !Nat.leb_le, !Nat.eqb_eq. lia.
Qed.

Lemma is_space_not_whitespace c : is_space c = false <-> ~ whitespace c.
Proof.
  rewrite <- is_space_whitespace. destruct (is_space c); split; congruence.
Qed.

Lemma string_of_list_ascii_snoc (l : list ascii) c s :
  string_of_list_ascii (l ++ [c])%list ++ s
  = string_of_list_ascii l ++ String c s.
Proof.
  induction l as [|a l IH]; [reflexivity|].
  change (String a (string_of_list_ascii (l ++ [c])%list ++ s)
          = String a (string_of_list_ascii l ++ String c s)).
  rewrite IH. reflexivity.
Qed.

Lemma split_from_blank sp t :
  blank sp -> split_from [] (sp ++ t) = split_from [] t.
Proof.
  unfold blank. induction sp as [|c sp IH]; intros Hb; [reflexivity|].
  change (list_ascii_of_string (String c sp))
    with (c :: list_ascii_of_string sp) in Hb.
  apply Forall_cons_iff in Hb. destruct Hb as [Hc Hb].
  apply is_space_whitespace in Hc.
  change (split_from [] (String c (sp ++ t)) = split_from [] t).
  cbn [split_from]. rewrite Hc. exact (IH Hb).
Qed.

Lemma split_from_solid w : forall cur rest,
  Forall (fun c => ~ whitespace c) (list_ascii_of_string w) ->
  split_from cur (w ++ rest)
  = split_from (rev (list_ascii_of_string w) ++ cur)%list rest.
Proof.
  induction w as [|c w IH]; intros cur rest Hw; [reflexivity|].
  change (list_ascii_of_string (String c w))
    with (c :: list_ascii_of_string w) in *.
  apply Forall_cons_iff in Hw. destruct Hw as [Hc Hw].
  apply is_space_not_whitespace in Hc.
  change (split_from cur (String c (w ++ rest))
          = split_from (rev (c :: list_ascii_of_string w) ++ cur)%list rest).
  cbn [split_from]. rewrite Hc. rewrite (IH (c :: cur) rest Hw).
  cbn [rev]. rewrite <- app_assoc. reflexivity.
Qed.

Lemma split_from_ends rest cur :
  ends_word rest ->
  split_from cur rest = (flush cur ++ split_from [] rest)%list.
Proof.
  destruct rest as [|c rest]; intros He; cbn [split_from].
  - cbn [flush]. rewrite app_nil_r. reflexivity.
  - apply is_space_whitespace in He. rewrite He. reflexivity.
Qed.

Lemma flush_rev_chars w :
  w <> EmptyString -> flush (rev (list_ascii_of_string w)) = [w].
Proof.
  intros Hw. unfold flush.
  destruct (rev (list_ascii_of_string w)) as [|a l] eqn:Hr.
  - apply (f_equal (@rev ascii)) in Hr. rewrite rev_involutive in Hr.
    destruct w; [congruence | discriminate].
  - rewrite <- Hr, rev_involutive, string_of_list_ascii_of_string.
    reflexivity.
Qed.

(** [words_of] determines the words: they are those of [split]. *)
Lemma words_of_split s ws : words_of s ws -> ws = split s.
Proof.
  unfold split. induction 1 as [s Hb|sp w rest ws Hsp [Hne Hw] He _ IH].
  - assert (Hs : s ++ EmptyString = s)
      by (clear; induction s as [|c s IHs]; [reflexivity|];
          change (String c (s ++ EmptyString) = String c s); congruence).
    rewrite <- Hs, (split_from_blank s EmptyString Hb). reflexivity.
  - rewrite (split_from_blank sp _ Hsp), (split_from_solid w [] rest Hw).
    rewrite app_nil_r, (split_from_ends rest _ He), (flush_rev_chars w Hne).
    rewrite IH. reflexivity.
Qed.

Lemma words_of_space c s ws :
  whitespace c -> words_of s ws -> words_of (String c s) ws.
Proof.
  intros Hc Hw. destruct Hw as [s Hb|sp w rest ws Hsp Hw He Hrest].
  - apply words_none. unfold blank in *.
    change (Forall whitespace (c :: list_ascii_of_string s)). auto.
  - change (words_of (String c sp ++ w ++ rest) (w :: ws)).
    apply words_next; auto. unfold blank in *.
    change (Forall whitespace (c :: list_ascii_of_string sp)). auto.
Qed.

Lemma split_from_words s : forall cur,
  Forall (fun c => ~ whitespace c) cur ->
  match cur with
  | [] => words_of s (split_from [] s)
  | _ => words_of (string_of_list_ascii (rev cur) ++ s) (split_from cur s)
  end.
Proof.
  assert (Hflush : forall a cur rest ws,
            Forall (fun c => ~ whitespace c) (a :: cur) ->
            ends_word rest -> words_of rest ws ->
            words_of (string_of_list_ascii (rev (a :: cur)) ++ rest)
                     (flush (a :: cur) ++ ws)%list).
  { intros a cur rest ws Hcur He Hws.
    change (words_of (EmptyString ++ string_of_list_ascii (rev (a :: cur)) ++ rest)
                     (string_of_list_ascii (rev (a :: cur)) :: ws)).
    apply words_next; auto.
    - constructor.
    - split.
      + intros Hempty. apply (f_equal list_ascii_of_string) in Hempty.
        rewrite list_ascii_of_string_of_list_ascii in Hempty.
        cbn [rev] in Hempty. destruct (rev cur); discriminate.
      + rewrite list_ascii_of_string_of_list_ascii.
        apply Forall_rev. exact Hcur. }
  induction s as [|c s IH]; intros cur Hcur.
  - destruct cur as [|a cur].
    + apply words_none. constructor.
    + cbn [split_from].
      rewrite <- (app_nil_r (flush (a :: cur))).
      apply Hflush; [exact Hcur | exact I |].
      apply words_none. constructor.
  - cbn [split_from]. destruct (is_space c) eqn:Hc.
    + apply is_space_whitespace in Hc.
      pose proof (words_of_space c s _ Hc (IH [] ltac:(constructor))) as Hrest.
      destruct cur as [|a cur]; [exact Hrest|].
      apply Hflush; [exact Hcur | exact Hc | exact Hrest].
    + apply is_space_not_whitespace in Hc.
      pose proof (IH (c :: cur) ltac:(constructor; assumption)) as Hnext.
      cbn [rev] in Hnext. rewrite string_of_list_ascii_snoc in Hnext.
      destruct cur as [|a cur]; exact Hnext.
Qed.

(** [split] yields the words of the string, and nothing else does. *)
Lemma split_words s ws : words_of s ws <-> ws = split s.
Proof.
  split; [apply words_of_split|].
  intros ->. exact (split_from_words s [] ltac:(constructor)).
Qed.

Lemma PyStr_list_inj (l l' : list string) :
  PyList (PyStr <$> l) = PyList (PyStr <$> l') -> l = l'.
Proof.
  intros [= Hl]. revert l' Hl.
  induction l as [|a l IH]; intros [|a' l'] Hl; try discriminate.
  - reflexivity.
  - injection Hl as -> Hl. rewrite (IH l' Hl). reflexivity.
Qed.

(** C6.  The scopes of an accepted token: the whitespace-separated words
    of its ["scope"] claim if it has one (then a string), else its
    ["permissions"] claim if it has one, else the empty list; so
    ["a b c"] gives a, b, c; permissions a, b without a scope claim give
    a, b; neither gives nothing.  The words are those of [words_of]: the
    runs of characters other than whitespace, each as it stands in the
    claim, in the order of the claim, and no other list is. *)
Theorem scopes_of_accepted `{Externals} self jwt st r st' j payload :
  verify_token self jwt st = (Some r, st') ->
  jws_segments jwt = Some j ->
  jws_payload j = Some payload ->
  (forall v, payload !! "scope" = Some v ->
     exists s, v = PyStr s /\ scopes r = PyList (PyStr <$> split s)) /\
  (payload !! "scope" = None ->
     forall v, payload !! "permissions" = Some v -> scopes r = v) /\
  (payload !! "scope" = None -> payload !! "permissions" = None ->
     scopes r = PyList []) /\
  (payload !! "scope" = Some (PyStr "a b c") ->
     scopes r = PyList [PyStr "a"; PyStr "b"; PyStr "c"]) /\
  (payload !! "scope" = None ->
   payload !! "permissions" = Some (PyList [PyStr "a"; PyStr "b"]) ->
     scopes r = PyList [PyStr "a"; PyStr "b"]) /\
  (forall v, payload !! "scope" = Some v ->
     exists s, v = PyStr s /\
       forall ws, words_of s ws <-> scopes r = PyList (PyStr <$> ws)) /\
  (payload !! "scope" = Some (PyStr "  read:transcripts   write:notes ") ->
     scopes r = PyList [PyStr "read:transcripts"; PyStr "write:notes"]).
Proof.
  intros Hv Hj Hp.
  destruct (verify_token_accepted self jwt st r st' j Hv Hj)
    as (sk & p' & Hp' & _ & _ & _ & Hb).
  assert (p' = payload) as -> by congruence.
  apply build_result_accepted in Hb. destruct Hb as (Hstr & -> & _).
  simpl. unfold granted_scopes.
  repeat split.
  - intros v Hs. rewrite Hs. specialize (Hstr v Hs).
    destruct v; try discriminate. eauto.
  - intros Hs v Hperm. rewrite Hs, Hperm. reflexivity.
  - intros Hs Hperm. rewrite Hs, Hperm. reflexivity.
  - intros Hs. rewrite Hs. reflexivity.
  - intros Hs Hperm. rewrite Hs, Hperm. reflexivity.
  - intros v Hs. rewrite Hs. specialize (Hstr v Hs).
    destruct v as [| | | |s| |]; try discriminate.
    exists s. split; [reflexivity|]. intros ws. rewrite split_words.
    split; [intros ->; reflexivity|].
    intros Heq. symmetry. exact (PyStr_list_inj _ _ Heq).
  - intros Hs. rewrite Hs. reflexivity.
Qed.

Lemma scopes_of_accepted_witness :
  Demo.run "full" Demo.warm
    = (Some (accepted_result (H := Demo.world) Demo.verifier "full" Demo.p_full), Demo.warm) /\
  scopes (accepted_result (H := Demo.world) Demo.verifier "full" Demo.p_full)
    = PyList [PyStr "a"; PyStr "b"; PyStr "c"].
Proof.
  split; [reflexivity|].
  exact (proj1 (proj2 (proj2 (proj2
           (scopes_of_accepted (H := Demo.world) Demo.verifier "full"
              Demo.warm (accepted_result (H := Demo.world) Demo.verifier "full" Demo.p_full)
              Demo.warm
              (Demo.signed (Demo.header "RS256" "k1") Demo.p_full)
              Demo.p_full eq_refl eq_refl eq_refl)))) eq_refl).
Defined.

(** C7, as the code has it.  The client identifier of an accepted token
    is its ["azp"] claim if the payload has one that is true as a
    condition (for a string: not empty), else its ["client_id"] claim if
    the payload has one, else ["unknown"]; so azp X with client_id Y
    gives X, client_id Y alone gives Y, and neither gives ["unknown"]. *)
Theorem client_id_of_accepted `{Externals} self jwt st r st' j payload :
  verify_token self jwt st = (Some r, st') ->
  jws_segments jwt = Some j ->
  jws_payload j = Some payload ->
  client_id r = client_id_by_truth payload /\
  (forall azp, payload !! "azp" = Some azp -> truthy azp = true ->
     client_id r = azp) /\
  (payload !! "azp" = None ->
     forall cid, payload !! "client_id" = Some cid -> client_id r = cid) /\
  (payload !! "azp" = None -> payload !! "client_id" = None ->
     client_id r = PyStr "unknown") /\
  (payload !! "azp" = Some (PyStr "X") ->
   payload !! "client_id" = Some (PyStr "Y") -> client_id r = PyStr "X") /\
  (payload !! "azp" = None ->
   payload !! "client_id" = Some (PyStr "Y") -> client_id r = PyStr "Y").
Proof.
  intros Hv Hj Hp.
  destruct (verify_token_accepted self jwt st r st' j Hv Hj)
    as (sk & p' & Hp' & _ & _ & _ & Hb).
  assert (p' = payload) as -> by congruence.
  apply build_result_accepted in Hb. destruct Hb as (_ & -> & _).
  simpl. unfold client_id_by_truth.
  repeat split.
  - intros azp Ha Ht. rewrite Ha, Ht. reflexivity.
  - intros Ha cid Hc. rewrite Ha, Hc. reflexivity.
  - intros Ha Hc. rewrite Ha, Hc. reflexivity.
  - intros Ha Hc. rewrite Ha. reflexivity.
  - intros Ha Hc. rewrite Ha, Hc. reflexivity.
Qed.

Lemma client_id_of_accepted_witness :
  Demo.run "full" Demo.warm
    = (Some (accepted_result (H := Demo.world) Demo.verifier "full" Demo.p_full), Demo.warm) /\
  client_id (accepted_result (H := Demo.world) Demo.verifier "full" Demo.p_full) = PyStr "X".
Proof.
  split; [reflexivity|].
  exact (proj1 (proj2 (proj2 (proj2 (proj2
           (client_id_of_accepted (H := Demo.world) Demo.verifier "full"
              Demo.warm (accepted_result (H := Demo.world) Demo.verifier "full" Demo.p_full)
              Demo.warm
              (Demo.signed (Demo.header "RS256" "k1") Demo.p_full)
              Demo.p_full eq_refl eq_refl eq_refl))))) eq_refl eq_refl).
Defined.

(** C7 as stated fails: a token whose ["azp"] claim is present and is
    the empty string, with client_id Y, is accepted with client
    identifier Y, not with the ["azp"] claim. *)
Lemma client_id_presence_counterexample :
  Demo.segments "azp-empty"
    = Some (Demo.signed (Demo.header "RS256" "k1") Demo.p_azp_empty) /\
  Demo.p_azp_empty !! "azp" = Some (PyStr EmptyString) /\
  (exists r,
     Demo.run "azp-empty" Demo.warm = (Some r, Demo.warm) /\
     client_id r = PyStr "Y" /\
     client_id r <> client_id_by_presence Demo.p_azp_empty).
Proof.
  split; [reflexivity|]. split; [reflexivity|].
  eexists. split; [reflexivity|]. split; [reflexivity|].
  vm_compute. discriminate.
Qed.

(** *** Key resolution inside [verify_token] *)

Lemma get_signing_key_from_jwt_cases `{Externals} uri jwt st j :
  jws_segments jwt = Some j ->
  (exists e, get_signing_key_from_jwt uri jwt st = (Raise e, st)) \/
  get_signing_key_from_jwt uri jwt st
    = get_signing_key uri (get (jws_header j) "kid") st.
Proof.
  intros Hj. unfold get_signing_key_from_jwt, decode_unverified_header, _load.
  rewrite Hj. simpl.
  destruct (b64_is_false (jws_header j)); [eauto|].
  destruct (_decode_payload j); simpl; eauto.
Qed.

Lemma verify_token_key_failure `{Externals} self jwt st e :
  fst (get_signing_key_from_jwt (jwks_url self) jwt st) = Raise e ->
  fst (verify_token self jwt st) = None.
Proof.
  unfold verify_token, verify_token_body.
  destruct (get_signing_key_from_jwt (jwks_url self) jwt st) as [[sk|e1] st1];
    simpl; [discriminate | reflexivity].
Qed.




(** C9, as the code has it.  The [expires_at] of an accepted token is
    [None] when the payload has no ["exp"] claim, and otherwise the
    integer that [int] reads from the claim, which is after now: the
    claim itself when that is an integer, and the integer a numeric
    string, a boolean or a float claim denotes when it is not.  A token
    without an ["exp"] claim is accepted when everything else passes:
    the expiry check applies only to a claim that is there. *)
Theorem expires_at_of_accepted `{Externals} self jwt st j payload :
  jws_segments jwt = Some j ->
  jws_payload j = Some payload ->
  (forall r st', verify_token self jwt st = (Some r, st') ->
     match payload !! "exp" with
     | None => expires_at r = PyNone
     | Some (PyInt z) => expires_at r = PyInt z /\ (utcnow < inject_Z z)%Q
     | Some exp => exists z, int int_of_str exp = Ok z /\
                             expires_at r = PyInt z /\
                             (utcnow < inject_Z z)%Q
     end) /\
  (payload !! "exp" = None ->
   forall signing_key st',
     get_signing_key_from_jwt (jwks_url self) jwt st = (Ok signing_key, st') ->
     _verify_signature j (key signing_key) (algorithms self) = Ok tt ->
     _validate_aud payload (audience self) false = Ok tt ->
     _validate_iss payload (issuer self) = Ok tt ->
     when (contains payload "iat") (_validate_iat payload utcnow 0) = Ok tt ->
     when (contains payload "nbf") (_validate_nbf payload utcnow 0) = Ok tt ->
     _validate_sub payload = Ok tt ->
     _validate_jti payload = Ok tt ->
     (forall s, payload !! "scope" = Some s -> is_str s = true) ->
     AccessToken_validates (AccessToken_arguments self jwt payload) = true ->
     exists r, verify_token self jwt st = (Some r, st') /\
               expires_at r = PyNone).
Proof.
  intros Hj Hp. split.
  - intros r st' Hv.
    destruct (verify_token_accepted self jwt st r st' j Hv Hj)
      as (sk & p' & Hp' & _ & _ & Hc & Hb).
    assert (p' = payload) as -> by congruence.
    apply build_result_accepted in Hb. destruct Hb as (_ & -> & _).
    unfold accepted_result, expiry_of. cbn [expires_at].
    apply _validate_claims_Ok in Hc. destruct Hc as (_ & _ & Hchk & _).
    unfold contains in Hchk. cbn [verify_exp decode_options andb] in Hchk.
    destruct (payload !! "exp") as [v|] eqn:Hexp; [|reflexivity].
    cbn in Hchk. apply _validate_exp_Ok in Hchk.
    destruct Hchk as (z & Hz & Hlt).
    unfold get in Hz. rewrite Hexp in Hz.
    change (int int_of_str v = Ok z) in Hz. rewrite Hz.
    destruct v; try (exists z; auto).
    cbn in Hz. injection Hz as ->. auto.
  - intros Hexp sk st' Hk Hs Haud Hiss Hiat Hnbf Hsub Hjti Hstr Hval.
    exists (accepted_result self jwt payload). split.
    + apply (verify_token_accepts self jwt st sk st' j payload); auto.
      apply _validate_claims_Ok. simpl. rewrite !andb_true_r.
      repeat split; auto.
      unfold contains. rewrite Hexp. reflexivity.
    + unfold accepted_result, expiry_of. simpl. rewrite Hexp. reflexivity.
Qed.

Lemma expires_at_of_accepted_witness :
  Demo.p_no_exp !! "exp" = None /\
  exists r, Demo.run "no-exp" Demo.warm = (Some r, Demo.warm) /\
            expires_at r = PyNone.
Proof.
  split; [reflexivity|].
  refine (proj2 (expires_at_of_accepted (H := Demo.world) Demo.verifier
                   "no-exp" Demo.warm
                   (Demo.signed (Demo.header "RS256" "k1") Demo.p_no_exp)
                   Demo.p_no_exp eq_refl eq_refl)
            eq_refl Demo.k1 Demo.warm
            eq_refl eq_refl eq_refl eq_refl eq_refl eq_refl eq_refl eq_refl
            _ eq_refl).
  intros s Hs. vm_compute in Hs. discriminate Hs.
Defined.

(** C9 as stated fails: a token whose ["exp"] claim is the string
    ["2000"] is accepted, and the [expires_at] of the result is the
    integer [2000], not the claim. *)
Lemma expires_at_coerced_counterexample :
  Demo3.segments "exp-text"
    = Some (Demo.signed (Demo.header "RS256" "k1") Demo3.p_exp_text) /\
  Demo3.p_exp_text !! "exp" = Some (PyStr "2000") /\
  exists r,
    verify_token (H := Demo3.world) Demo.verifier "exp-text" Demo3.warm
      = (Some r, Demo3.warm) /\
    expires_at r = PyInt 2000 /\
    expires_at r <> PyStr "2000".
Proof.
  split; [reflexivity|]. split; [reflexivity|].
  eexists. split; [reflexivity|]. split; [reflexivity | discriminate].
Qed.

(** C10.  When an accepted token has a ["scope"] claim, its scopes are
    the words of that claim and the ["permissions"] claim plays no part:
    the scopes computed from the payload are the same whatever
    ["permissions"] holds or whether it is there at all; an empty
    ["scope"] string gives no scopes. *)
Theorem scope_shadows_permissions `{Externals} self jwt st r st' j payload
  scope :
  verify_token self jwt st = (Some r, st') ->
  jws_segments jwt = Some j ->
  jws_payload j = Some payload ->
  payload !! "scope" = Some scope ->
  (exists s, scope = PyStr s /\ scopes r = PyList (PyStr <$> split s)) /\
  (scope = PyStr EmptyString -> scopes r = PyList []) /\
  (forall permissions,
     extract_scopes (<["permissions" := permissions]> payload)
       = extract_scopes payload) /\
  extract_scopes (delete "permissions" payload) = extract_scopes payload /\
  extract_scopes payload = Ok (scopes r).
Proof.
  intros Hv Hj Hp Hs.
  destruct (verify_token_accepted self jwt st r st' j Hv Hj)
    as (sk & p' & Hp' & _ & _ & _ & Hb).
  assert (p' = payload) as -> by congruence.
  apply build_result_accepted in Hb. destruct Hb as (Hstr & -> & _).
  specialize (Hstr scope Hs). simpl scopes. unfold granted_scopes.
  rewrite Hs. destruct scope as [| | | |s| |]; try discriminate.
  repeat split.
  - exists s. auto.
  - intros [= ->]. reflexivity.
  - intros permissions. unfold extract_scopes.
    rewrite lookup_insert_ne by discriminate. rewrite Hs. reflexivity.
  - unfold extract_scopes.
    rewrite lookup_delete_ne by discriminate. rewrite Hs. reflexivity.
  - unfold extract_scopes. rewrite Hs. reflexivity.
Qed.

Lemma scope_shadows_permissions_witness :
  Demo.p_scope_empty !! "permissions" = Some (PyList [PyStr "a"]) /\
  Demo.run "scope-empty" Demo.warm
    = (Some (accepted_result (H := Demo.world) Demo.verifier "scope-empty" Demo.p_scope_empty),
       Demo.warm) /\
  scopes (accepted_result (H := Demo.world) Demo.verifier "scope-empty" Demo.p_scope_empty)
    = PyList [].
Proof.
  split; [reflexivity|]. split; [reflexivity|].
  exact (proj1 (proj2
           (scope_shadows_permissions (H := Demo.world) Demo.verifier
              "scope-empty" Demo.warm
              (accepted_result (H := Demo.world) Demo.verifier "scope-empty" Demo.p_scope_empty)
              Demo.warm
              (Demo.signed (Demo.header "RS256" "k1") Demo.p_scope_empty)
              Demo.p_scope_empty (PyStr EmptyString) eq_refl eq_refl eq_refl eq_refl))
           eq_refl).
Defined.

(** ** Further properties of [verify_token] *)

Lemma match_kid_None `{Externals} (signing_keys : list (PyJWK Key)) :
  match_kid signing_keys PyNone = None.
Proof.
  unfold match_kid. induction signing_keys as [|k ks IH]; simpl; [reflexivity|].
  destruct (key_id k); exact IH.
Qed.

Lemma get_signing_key_no_kid `{Externals} uri st :
  exists e, fst (get_signing_key uri PyNone st) = Raise e.
Proof.
  unfold get_signing_key.
  destruct (get_signing_keys uri false st) as [[ks|e] st1]; simpl; [|eauto].
  rewrite match_kid_None.
  destruct (get_signing_keys uri true st1) as [[ks'|e] st2]; simpl; [|eauto].
  rewrite match_kid_None. simpl. eauto.
Qed.

Lemma get_signing_key_hit `{Externals} uri kid st d k :
  jwk_set_cache st = Some d ->
  document_key d kid = Some k ->
  get_signing_key uri kid st = (Ok k, st).
Proof.
  intros Hc Hd. unfold get_signing_key.
  rewrite (get_signing_keys_cached uri st d Hc).
  destruct d as [|keys]; [discriminate|]. unfold document_key in Hd.
  destruct keys as [|k0 keys]; [discriminate|].
  destruct (List.filter is_signing_key (k0 :: keys)) as [|k1 ks];
    [discriminate|].
  rewrite Hd. reflexivity.
Qed.

(** A token that does not load, or whose payload is not a JSON object,
    is rejected before the key set is looked at: no request is made and
    the client is left as it was. *)
Theorem unreadable_token_no_request `{Externals} self jwt st :
  (forall j, jws_segments jwt = Some j -> jws_payload j = None) ->
  verify_token self jwt st = (None, st).
Proof.
  intros Hbad. unfold verify_token, verify_token_body,
    get_signing_key_from_jwt, decode_unverified_header, _load.
  destruct (jws_segments jwt) as [j|]; [|reflexivity].
  specialize (Hbad j eq_refl). simpl.
  destruct (b64_is_false (jws_header j)); try reflexivity.
  unfold _decode_payload. rewrite Hbad. reflexivity.
Qed.

Lemma unreadable_token_no_request_witness :
  Demo.run "not a token" Demo.cold = (None, Demo.cold).
Proof.
  apply (unreadable_token_no_request (H := Demo.world) Demo.verifier
           "not a token" Demo.cold).
  intros j Hj. discriminate Hj.
Defined.

(** A token whose key identifier the cached key set holds is verified
    without any request: the client is left as it was, whatever the
    verdict. *)
Theorem cached_key_no_request `{Externals} self jwt st j d k :
  jws_segments jwt = Some j ->
  jwk_set_cache st = Some d ->
  document_key d (get (jws_header j) "kid") = Some k ->
  snd (verify_token self jwt st) = st.
Proof.
  intros Hj Hc Hd. rewrite verify_token_state.
  destruct (get_signing_key_from_jwt_cases (jwks_url self) jwt st j Hj)
    as [(e & ->) | ->]; [reflexivity|].
  rewrite (get_signing_key_hit _ _ st d k Hc Hd). reflexivity.
Qed.

Lemma cached_key_no_request_witness :
  snd (Demo.run "expired" Demo.warm) = Demo.warm.
Proof.
  exact (cached_key_no_request (H := Demo.world) Demo.verifier "expired"
           Demo.warm (Demo.signed (Demo.header "RS256" "k1") Demo.p_expired)
           (KeySet [Demo.k1]) Demo.k1 eq_refl eq_refl eq_refl).
Defined.

(** A token whose signature no key verifies under any algorithm is
    rejected, whatever its claims. *)
Theorem bad_signature_rejected `{Externals} self jwt st j :
  jws_segments jwt = Some j ->
  (forall a k, crypto_verify a k (jws_signing_input j) (jws_signature j)
               <> Ok true) ->
  fst (verify_token self jwt st) = None.
Proof.
  intros Hj Hbad. apply verify_token_None. intros r Hr.
  destruct (verify_token self jwt st) as [o st'] eqn:Hv. simpl in Hr. subst o.
  destruct (verify_token_accepted self jwt st r st' j Hv Hj)
    as (sk & payload & _ & _ & Hs & _).
  apply _verify_signature_Ok in Hs. destruct Hs as (a & _ & _ & _ & _ & Hok).
  exact (Hbad a (key sk) Hok).
Qed.

(** A token whose header has no key identifier is rejected, whatever the
    key set holds. *)
Theorem missing_kid_rejected `{Externals} self jwt st j :
  jws_segments jwt = Some j ->
  jws_header j !! "kid" = None ->
  fst (verify_token self jwt st) = None.
Proof.
  intros Hj Hkid.
  destruct (get_signing_key_from_jwt_cases (jwks_url self) jwt st j Hj)
    as [(e & He) | He].
  - apply (verify_token_key_failure self jwt st e). rewrite He. reflexivity.
  - unfold get in He. rewrite Hkid in He. simpl in He.
    destruct (get_signing_key_no_kid (jwks_url self) st) as (e & He').
    apply (verify_token_key_failure self jwt st e). rewrite He. exact He'.
Qed.

(** A token whose issued-at or not-before time is after now is
    rejected. *)
Theorem premature_token_rejected `{Externals} self jwt st j payload c v z :
  jws_segments jwt = Some j ->
  jws_payload j = Some payload ->
  c = "iat" \/ c = "nbf" ->
  payload !! c = Some v ->
  int int_of_str v = Ok z ->
  (utcnow < inject_Z z)%Q ->
  fst (verify_token self jwt st) = None.
Proof.
  intros Hj Hp Hc Hv Hz Hlt. apply verify_token_None. intros r Hr.
  destruct (verify_token self jwt st) as [o st'] eqn:Hrun. simpl in Hr. subst o.
  destruct (verify_token_accepted self jwt st r st' j Hrun Hj)
    as (sk & p' & Hp' & _ & _ & Hchk & _).
  assert (p' = payload) as -> by congruence.
  apply _validate_claims_Ok in Hchk. destruct Hchk as (Hiat & Hnbf & _).
  assert (Hnot : Qle_bool (inject_Z z) (utcnow + 0) = false).
  { apply Qle_bool_false. rewrite Qplus_0_r. exact Hlt. }
  destruct Hc as [-> | ->].
  - unfold contains in Hiat. rewrite Hv in Hiat. simpl in Hiat.
    unfold _validate_iat, get in Hiat. rewrite Hv in Hiat. simpl in Hiat.
    apply (int_claim_Ok _ InvalidIssuedAtError) in Hz. rewrite Hz in Hiat.
    simpl in Hiat. rewrite Hnot in Hiat. discriminate.
  - unfold contains in Hnbf. rewrite Hv in Hnbf. simpl in Hnbf.
    unfold _validate_nbf, get in Hnbf. rewrite Hv in Hnbf. simpl in Hnbf.
    apply (int_claim_Ok _ DecodeError) in Hz. rewrite Hz in Hnbf.
    simpl in Hnbf. rewrite Hnot in Hnbf. discriminate.
Qed.

(** The result of an accepted token depends on the token and the
    verifier alone, not on the state of the key-set client: two accepting
    calls give the same result, which holds the presented token and the
    verifier's audience. *)
Theorem result_independent_of_client `{Externals} self jwt st1 st2 r1 r2
  st1' st2' :
  verify_token self jwt st1 = (Some r1, st1') ->
  verify_token self jwt st2 = (Some r2, st2') ->
  r1 = r2 /\ token r1 = jwt /\ resource r1 = audience self.
Proof.
  intros H1 H2. destruct (accepted_segments self jwt st1 r1 st1' H1) as (j & Hj).
  destruct (verify_token_accepted self jwt st1 r1 st1' j H1 Hj)
    as (sk1 & p1 & Hp1 & _ & _ & _ & Hb1).
  destruct (verify_token_accepted self jwt st2 r2 st2' j H2 Hj)
    as (sk2 & p2 & Hp2 & _ & _ & _ & Hb2).
  assert (p2 = p1) as -> by congruence.
  apply build_result_accepted in Hb1. destruct Hb1 as (_ & -> & _).
  apply build_result_accepted in Hb2. destruct Hb2 as (_ & -> & _).
  repeat split.
Qed.

Lemma bad_signature_rejected_witness :
  fst (verify_token (H := Demo2.world) Demo.verifier "forged" Demo2.warm)
    = None.
Proof.
  apply (bad_signature_rejected (H := Demo2.world) Demo.verifier "forged"
           Demo2.warm Demo2.forged eq_refl).
  intros a k. simpl. unfold Demo.verify_with.
  destruct (String.eqb a "RS256" || String.eqb a "HS256"); discriminate.
Defined.

Lemma missing_kid_rejected_witness :
  fst (verify_token (H := Demo2.world) Demo.verifier "no-kid" Demo2.warm)
    = None.
Proof.
  exact (missing_kid_rejected (H := Demo2.world) Demo.verifier "no-kid"
           Demo2.warm (Demo.signed Demo2.header_no_kid Demo.p_full)
           eq_refl eq_refl).
Defined.

Lemma premature_token_rejected_witness :
  fst (verify_token (H := Demo2.world) Demo.verifier "not-yet" Demo2.warm)
    = None.
Proof.
  apply (premature_token_rejected (H := Demo2.world) Demo.verifier "not-yet"
           Demo2.warm
           (Demo.signed (Demo.header "RS256" "k1") Demo2.p_not_yet)
           Demo2.p_not_yet "nbf" (PyInt 5000) 5000 eq_refl eq_refl
           (or_intror eq_refl) eq_refl eq_refl).
  vm_compute. reflexivity.
Defined.

Lemma result_independent_of_client_witness :
  accepted_result (H := Demo.world) Demo.verifier "full" Demo.p_full
    = accepted_result (H := Demo.world) Demo.verifier "full" Demo.p_full /\
  token (accepted_result (H := Demo.world) Demo.verifier "full" Demo.p_full) = "full" /\
  resource (accepted_result (H := Demo.world) Demo.verifier "full" Demo.p_full) = "api".
Proof.
  exact (result_independent_of_client (H := Demo.world) Demo.verifier "full"
           Demo.warm Demo.cold
           (accepted_result (H := Demo.world) Demo.verifier "full" Demo.p_full)
           (accepted_result (H := Demo.world) Demo.verifier "full" Demo.p_full)
           Demo.warm Demo.warm eq_refl eq_refl).
Defined.

(** *** The words of [split] *)

Lemma flush_clean (cur : list ascii) w :
  (forall c, In c cur -> is_space c = false) ->
  In w (flush cur) -> clean_word w.
Proof.
  intros Hcur Hw. destruct cur as [|c cur]; [destruct Hw|].
  simpl in Hw. destruct Hw as [<-|[]]. split.
  - intros Hempty.
    apply (f_equal list_ascii_of_string) in Hempty.
    rewrite list_ascii_of_string_of_list_ascii in Hempty. simpl in Hempty.
    destruct (rev cur); discriminate.
  - intros c' Hc'. unfold chars in Hc'.
    rewrite list_ascii_of_string_of_list_ascii in Hc'.
    apply Hcur. apply in_rev. exact Hc'.
Qed.

Lemma split_from_clean s : forall (cur : list ascii) w,
  (forall c, In c cur -> is_space c = false) ->
  In w (split_from cur s) -> clean_word w.
Proof.
  induction s as [|c s IH]; intros cur w Hcur Hw; simpl in Hw.
  - exact (flush_clean cur w Hcur Hw).
  - destruct (is_space c) eqn:Hc.
    + apply in_app_or in Hw. destruct Hw as [Hw|Hw].
      * exact (flush_clean cur w Hcur Hw).
      * apply (IH [] w); [intros c' []|exact Hw].
    + apply (IH (c :: cur) w); [|exact Hw].
      intros c' [<-|Hc']; [exact Hc | apply Hcur; exact Hc'].
Qed.

(** The scopes granted from a ["scope"] claim are words: none of them is
    empty and none contains whitespace. *)
Theorem scope_words_clean `{Externals} self jwt st r st' j payload v :
  verify_token self jwt st = (Some r, st') ->
  jws_segments jwt = Some j ->
  jws_payload j = Some payload ->
  payload !! "scope" = Some v ->
  exists words,
    scopes r = PyList (PyStr <$> words) /\
    forall w, In w words -> clean_word w.
Proof.
  intros Hv Hj Hp Hs.
  destruct (verify_token_accepted self jwt st r st' j Hv Hj)
    as (sk & p' & Hp' & _ & _ & _ & Hb).
  assert (p' = payload) as -> by congruence.
  apply build_result_accepted in Hb. destruct Hb as (Hstr & -> & _).
  specialize (Hstr v Hs). destruct v as [| | | |s| |]; try discriminate.
  exists (split s). split.
  - simpl. unfold granted_scopes. rewrite Hs. reflexivity.
  - intros w Hw. apply (split_from_clean s [] w); [intros c []|exact Hw].
Qed.

Lemma scope_words_clean_witness :
  exists words,
    scopes (accepted_result (H := Demo.world) Demo.verifier "full" Demo.p_full)
      = PyList (PyStr <$> words) /\
    forall w, In w words -> clean_word w.
Proof.
  exact (scope_words_clean (H := Demo.world) Demo.verifier "full" Demo.warm
           (accepted_result (H := Demo.world) Demo.verifier "full" Demo.p_full) Demo.warm
           (Demo.signed (Demo.header "RS256" "k1") Demo.p_full) Demo.p_full
           (PyStr "a b c") eq_refl eq_refl eq_refl eq_refl).
Defined.

(** *** The cache of the key-set client *)

(** With nothing cached and the endpoint failing, the token is rejected
    and nothing is cached: the client is as before (the token did not
    load) or has made that one request. *)
Theorem fetch_failure_fails_closed `{Externals} self jwt st e :
  jwk_set_cache st = None ->
  fetch_response (jwks_url self) (requests st) = Raise e ->
  fst (verify_token self jwt st) = None /\
  (snd (verify_token self jwt st) = st \/
   snd (verify_token self jwt st)
     = {| jwk_set_cache := None; requests := S (requests st) |}).
Proof.
  intros Hc Hf.
  assert (Hcases :
    (exists e', get_signing_key_from_jwt (jwks_url self) jwt st = (Raise e', st)) \/
    get_signing_key_from_jwt (jwks_url self) jwt st
      = (Raise e, {| jwk_set_cache := None; requests := S (requests st) |})).
  { unfold get_signing_key_from_jwt.
    destruct (decode_unverified_header jwt) as [h|e']; [right|left; eauto].
    unfold get_signing_key, get_signing_keys, get_jwk_set, fetch_data.
    rewrite Hc, Hf. reflexivity. }
  rewrite verify_token_state.
  destruct Hcases as [(e' & He) | He]; rewrite He; simpl; split; auto;
    eapply verify_token_key_failure; rewrite He; reflexivity.
Qed.

Lemma fetch_failure_fails_closed_witness :
  fst (verify_token (H := Demo2.offline) Demo.verifier "full" Demo2.cold)
    = None /\
  (snd (verify_token (H := Demo2.offline) Demo.verifier "full" Demo2.cold)
     = Demo2.cold \/
   snd (verify_token (H := Demo2.offline) Demo.verifier "full" Demo2.cold)
     = @Build_client_state Demo2.offline None 1).
Proof.
  exact (fetch_failure_fails_closed (H := Demo2.offline) Demo.verifier "full"
           Demo2.cold PyJWKClientConnectionError eq_refl eq_refl).
Defined.

Lemma cache_follows_trans `{Externals} uri st1 st2 st3 :
  cache_follows uri st1 st2 -> cache_follows uri st2 st3 ->
  cache_follows uri st1 st3.
Proof.
  intros [-> | [Hlt Hc]] [-> | [Hlt' Hc']]; unfold cache_follows; auto.
  right. split; [lia | exact Hc'].
Qed.

Lemma get_jwk_set_follows `{Externals} uri refresh st :
  cache_follows uri st (snd (get_jwk_set uri refresh st)).
Proof.
  unfold get_jwk_set.
  destruct (if refresh then None else jwk_set_cache st) as [d|].
  - left. destruct d as [|[|? ?]]; reflexivity.
  - right. unfold fetch_data.
    destruct (fetch_response uri (requests st)) as [[[|[|? ?]]|]|] eqn:Hf;
      simpl; rewrite Nat.sub_0_r, Hf; split; auto.
Qed.

Lemma get_signing_key_follows `{Externals} uri kid st :
  cache_follows uri st (snd (get_signing_key uri kid st)).
Proof.
  unfold get_signing_key.
  pose proof (get_jwk_set_follows uri false st) as H1.
  rewrite <- get_signing_keys_state in H1.
  destruct (get_signing_keys uri false st) as [[ks|e] st1]; simpl in *;
    [|exact H1].
  destruct (match_kid ks kid); simpl; [exact H1|].
  pose proof (get_jwk_set_follows uri true st1) as H2.
  rewrite <- get_signing_keys_state in H2.
  destruct (get_signing_keys uri true st1) as [[ks'|e] st2]; simpl in *.
  - destruct (match_kid ks' kid); simpl;
      exact (cache_follows_trans uri st st1 st2 H1 H2).
  - exact (cache_follows_trans uri st st1 st2 H1 H2).
Qed.

(** After any call the cache is what it was, if no request was made, or
    else it holds the outcome of the latest request: the document
    received, and nothing when that request failed or the document
    received was [null]. *)
Theorem cache_holds_latest_response `{Externals} self jwt st :
  cache_follows (jwks_url self) st (snd (verify_token self jwt st)).
Proof.
  rewrite verify_token_state. unfold get_signing_key_from_jwt.
  destruct (decode_unverified_header jwt) as [h|e]; simpl.
  - apply get_signing_key_follows.
  - left. reflexivity.
Qed.

Lemma cache_holds_latest_response_witness :
  cache_follows (H := Demo4.world) (jwks_url Demo.verifier) Demo4.warm
    (snd (verify_token (H := Demo4.world) Demo.verifier "unknown-kid"
            Demo4.warm)) /\
  snd (verify_token (H := Demo4.world) Demo.verifier "unknown-kid" Demo4.warm)
    = @Build_client_state Demo4.world None 2.
Proof.
  split; [|reflexivity].
  exact (cache_holds_latest_response (H := Demo4.world) Demo.verifier
           "unknown-kid" Demo4.warm).
Defined.

(** ** Strings *)

Lemma length_app (s t : string) :
  String.length (s ++ t) = (String.length s + String.length t)%nat.
Proof. induction s as [|c s IH]; simpl; [reflexivity | rewrite IH; reflexivity]. Qed.

Lemma chars_app (s t : string) : chars (s ++ t) = (chars s ++ chars t)%list.
Proof. induction s as [|c s IH]; simpl; [reflexivity | unfold chars in *; simpl; rewrite IH; reflexivity]. Qed.

Lemma app_cons (c : ascii) (s t : string) :
  String c s ++ t = String c (s ++ t).
Proof. reflexivity. Qed.

Lemma take_drop (n : nat) (s : string) : take n s ++ drop n s = s.
Proof.
  revert s. induction n as [|n IH]; intros [|c s]; simpl; try reflexivity.
  rewrite app_cons, IH. reflexivity.
Qed.

Lemma length_take (n : nat) (s : string) :
  String.length (take n s) = Nat.min n (String.length s).
Proof.
  revert s. induction n as [|n IH]; intros [|c s]; simpl; try reflexivity.
  f_equal. apply IH.
Qed.

Lemma length_drop (n : nat) (s : string) :
  String.length (drop n s) = (String.length s - n)%nat.
Proof.
  revert s. induction n as [|n IH]; intros [|c s]; simpl; try reflexivity.
  apply IH.
Qed.

Lemma drop_drop (a b : nat) (s : string) : drop a (drop b s) = drop (b + a) s.
Proof.
  revert s. induction b as [|b IH]; intros s; simpl; [reflexivity|].
  destruct s as [|c s]; [destruct a; reflexivity | apply IH].
Qed.

Lemma length_repeat_char (c : ascii) (n : nat) :
  String.length (repeat_char c n) = n.
Proof. induction n as [|n IH]; simpl; [reflexivity | rewrite IH; reflexivity]. Qed.

Lemma split_on_cons (sep : ascii) (s : string) :
  exists w ws, split_on sep s = w :: ws.
Proof.
  induction s as [|c s (w & ws & IH)]; simpl; [eauto|].
  destruct (Ascii.eqb c sep); [eauto|]. rewrite IH. eauto.
Qed.

Lemma split_on_length (sep : ascii) (s : string) :
  length (split_on sep s) = S (count_occ ascii_dec (chars s) sep).
Proof.
  induction s as [|c s IH]; [reflexivity|].
  unfold chars in *. simpl.
  destruct (Ascii.eqb_spec c sep) as [->|Hne].
  - destruct (ascii_dec sep sep); [|contradiction]. simpl. rewrite IH.
    reflexivity.
  - destruct (ascii_dec c sep); [contradiction|].
    destruct (split_on_cons sep s) as (w & ws & Hw). rewrite Hw in IH |- *.
    exact IH.
Qed.

Lemma split_on_no_sep (sep : ascii) (s : string) w :
  In w (split_on sep s) -> ~ In sep (chars w).
Proof.
  revert w. induction s as [|c s IH]; intros w Hw; simpl in Hw.
  - destruct Hw as [<-|[]]. intros [].
  - destruct (Ascii.eqb_spec c sep) as [->|Hne].
    + destruct Hw as [<-|Hw]; [intros [] | exact (IH w Hw)].
    + destruct (split_on_cons sep s) as (w0 & ws & Hs). rewrite Hs in Hw, IH.
      destruct Hw as [<-|Hw].
      * intros [Hc|Hin]; [congruence|]. exact (IH w0 (or_introl eq_refl) Hin).
      * exact (IH w (or_intror Hw)).
Qed.

Lemma concat_cons2 (sep x y : string) (l : list string) :
  String.concat sep (x :: y :: l) = x ++ sep ++ String.concat sep (y :: l).
Proof. reflexivity. Qed.

(** Joining the fields with the separator gives the string back. *)
Lemma join_split_on (sep : ascii) (s : string) :
  String.concat (String sep EmptyString) (split_on sep s) = s.
Proof.
  induction s as [|c s IH]; [reflexivity|].
  destruct (split_on_cons sep s) as (w & ws & Hs).
  simpl split_on. rewrite Hs in IH |- *.
  destruct (Ascii.eqb_spec c sep) as [->|Hne].
  - rewrite concat_cons2, IH. reflexivity.
  - destruct ws as [|w' ws].
    + simpl in IH |- *. rewrite IH. reflexivity.
    + rewrite concat_cons2 in IH |- *. rewrite app_cons, IH. reflexivity.
Qed.

Lemma lstrip_chars (s : string) c : In c (chars (lstrip s)) -> In c (chars s).
Proof.
  induction s as [|a s IH]; simpl; [auto|].
  destruct (is_space a); [intros Hc; right; exact (IH Hc) | auto].
Qed.

Lemma rstrip_chars (s : string) c : In c (chars (rstrip s)) -> In c (chars s).
Proof.
  induction s as [|a s IH]; simpl; [auto|].
  destruct (rstrip s) as [|b r].
  - destruct (is_space a); simpl; [intros [] | intros [<-|[]]; left; reflexivity].
  - intros [<-|Hc]; [left; reflexivity | right; exact (IH Hc)].
Qed.

Lemma lstrip_first (s : string) c :
  first_char (lstrip s) = Some c -> is_space c = false.
Proof.
  induction s as [|a s IH]; simpl; [discriminate|].
  destruct (is_space a) eqn:Ha; [exact IH|]. simpl. congruence.
Qed.

Lemma rstrip_first (s : string) c :
  first_char (rstrip s) = Some c -> first_char s = Some c.
Proof.
  destruct s as [|a s]; simpl; [auto|].
  destruct (rstrip s); [destruct (is_space a)|]; simpl; auto; discriminate.
Qed.

Lemma rstrip_last (s : string) c :
  last_char (rstrip s) = Some c -> is_space c = false.
Proof.
  induction s as [|a s IH]; simpl; [discriminate|].
  destruct (rstrip s) as [|b r].
  - destruct (is_space a) eqn:Ha; simpl; [discriminate | congruence].
  - exact IH.
Qed.

(** [strip] leaves no whitespace at either end and adds no character. *)
Lemma strip_ends (s : string) :
  (forall c, first_char (strip s) = Some c -> is_space c = false) /\
  (forall c, last_char (strip s) = Some c -> is_space c = false) /\
  (forall c, In c (chars (strip s)) -> In c (chars s)).
Proof.
  unfold strip. repeat split.
  - intros c Hc. apply (lstrip_first s). apply rstrip_first. exact Hc.
  - intros c Hc. exact (rstrip_last _ c Hc).
  - intros c Hc. apply lstrip_chars. apply rstrip_chars. exact Hc.
Qed.

(** ** Properties of the rest of [auth.py] *)

Lemma unset_false (v : option string) :
  unset v = false <-> exists s, v = Some s /\ s <> EmptyString.
Proof.
  unfold unset. destruct v as [s|].
  - destruct (String.eqb_spec s EmptyString); split.
    + discriminate.
    + intros (s' & [= <-] & Hne). contradiction.
    + eauto.
    + reflexivity.
  - split; [discriminate | intros (s & Hs & _); discriminate].
Qed.

Lemma init_algorithms_nonempty d aud (l : list string) :
  l <> [] -> algorithms (Auth0TokenVerifier_init d aud (Some l)) = l.
Proof. destruct l; [contradiction | reflexivity]. Qed.

Lemma configured_algorithms_eq (environ : gmap string string) v :
  create_auth0_verifier environ = Ok v ->
  algorithms v
    = strip <$> split_on "," (default "RS256" (environ !! "AUTH0_ALGORITHMS")).
Proof.
  unfold create_auth0_verifier.
  destruct (unset (environ !! "AUTH0_DOMAIN")); [discriminate|].
  destruct (unset (environ !! "AUTH0_AUDIENCE")); [discriminate|].
  intros [= <-]. apply init_algorithms_nonempty.
  destruct (split_on_cons "," (default "RS256" (environ !! "AUTH0_ALGORITHMS")))
    as (w & ws & ->). discriminate.
Qed.

Lemma create_auth0_verifier_Ok (environ : gmap string string) v :
  create_auth0_verifier environ = Ok v ->
  exists d a,
    environ !! "AUTH0_DOMAIN" = Some d /\ d <> EmptyString /\
    environ !! "AUTH0_AUDIENCE" = Some a /\ a <> EmptyString /\
    domain v = d /\ audience v = a /\
    issuer v = "https://" ++ d ++ "/" /\
    jwks_url v = "https://" ++ d ++ "/.well-known/jwks.json".
Proof.
  unfold create_auth0_verifier.
  destruct (unset (environ !! "AUTH0_DOMAIN")) eqn:Hd; [discriminate|].
  destruct (unset (environ !! "AUTH0_AUDIENCE")) eqn:Ha; [discriminate|].
  apply unset_false in Hd, Ha.
  destruct Hd as (d & Hd & Hdne). destruct Ha as (a & Ha & Hane).
  rewrite Hd, Ha. intros [= <-]. exists d, a. repeat split; auto.
Qed.

(** [create_auth0_verifier] returns a verifier exactly when AUTH0_DOMAIN
    and AUTH0_AUDIENCE are both set and not empty, and raises
    [ValueError] otherwise; the verifier is for that domain and audience,
    with issuer [https://domain/] and key-set URL
    [https://domain/.well-known/jwks.json]. *)
Theorem create_auth0_verifier_requires (environ : gmap string string) :
  (forall v, create_auth0_verifier environ = Ok v ->
     exists d a,
       environ !! "AUTH0_DOMAIN" = Some d /\ d <> EmptyString /\
       environ !! "AUTH0_AUDIENCE" = Some a /\ a <> EmptyString /\
       domain v = d /\ audience v = a /\
       issuer v = "https://" ++ d ++ "/" /\
       jwks_url v = "https://" ++ d ++ "/.well-known/jwks.json") /\
  (forall e, create_auth0_verifier environ = Raise e ->
     e = ValueError /\
     (unset (environ !! "AUTH0_DOMAIN") = true \/
      unset (environ !! "AUTH0_AUDIENCE") = true)) /\
  (unset (environ !! "AUTH0_DOMAIN") = true \/
   unset (environ !! "AUTH0_AUDIENCE") = true ->
   create_auth0_verifier environ = Raise ValueError).
Proof.
  unfold create_auth0_verifier.
  destruct (unset (environ !! "AUTH0_DOMAIN")) eqn:Hd.
  { repeat split; try discriminate; auto. congruence. }
  destruct (unset (environ !! "AUTH0_AUDIENCE")) eqn:Ha.
  { repeat split; try discriminate; auto. congruence. }
  apply unset_false in Hd, Ha.
  destruct Hd as (d & Hd & Hdne). destruct Ha as (a & Ha & Hane).
  rewrite Hd, Ha. repeat split; try discriminate.
  - intros v [= <-]. exists d, a. repeat split; auto.
  - intros [H|H]; discriminate.
Qed.

(** The accepted algorithms of a configured verifier are the fields of
    AUTH0_ALGORITHMS between its commas, one more than it has commas,
    each without whitespace at either end and without a comma; unset, the
    variable gives the single ["RS256"]. *)
Theorem configured_algorithms (environ : gmap string string) v :
  create_auth0_verifier environ = Ok v ->
  length (algorithms v)
    = S (count_occ ascii_dec
           (chars (default "RS256" (environ !! "AUTH0_ALGORITHMS"))) ","%char) /\
  (forall a, In a (algorithms v) ->
     (forall c, first_char a = Some c -> is_space c = false) /\
     (forall c, last_char a = Some c -> is_space c = false) /\
     ~ In ","%char (chars a)) /\
  (environ !! "AUTH0_ALGORITHMS" = None -> algorithms v = ["RS256"]).
Proof.
  intros Hv. rewrite (configured_algorithms_eq environ v Hv).
  split; [|split].
  - rewrite length_fmap. apply split_on_length.
  - intros a Ha. apply list_elem_of_In in Ha.
    apply list_elem_of_fmap in Ha. destruct Ha as (w & -> & Hw).
    apply list_elem_of_In in Hw.
    destruct (strip_ends w) as (Hf & Hl & Hc). repeat split; auto.
    intros Hcomma. exact (split_on_no_sep _ _ w Hw (Hc _ Hcomma)).
  - intros ->. reflexivity.
Qed.

Lemma configured_algorithms_witness :
  create_auth0_verifier Demo2.environ
    = Ok (Auth0TokenVerifier_init "tenant.example" "api"
            (Some ["RS256"; "ES256"])) /\
  length ["RS256"; "ES256"] = 2%nat.
Proof.
  split; [reflexivity|].
  exact (proj1 (configured_algorithms Demo2.environ
                  (Auth0TokenVerifier_init "tenant.example" "api"
                     (Some ["RS256"; "ES256"])) eq_refl)).
Defined.

(** When every field of AUTH0_ALGORITHMS is blank, the verifier is
    created all the same, without the RS256 default, and rejects every
    token. *)
Theorem blank_algorithms_reject_all `{Externals}
  (environ : gmap string string) v jwt st :
  create_auth0_verifier environ = Ok v ->
  (forall w, In w (split_on "," (default "RS256"
                                   (environ !! "AUTH0_ALGORITHMS"))) ->
             strip w = EmptyString) ->
  fst (verify_token v jwt st) = None.
Proof.
  intros Hv Hblank. apply verify_token_None. intros r Hr.
  destruct (verify_token v jwt st) as [o st'] eqn:Hrun. simpl in Hr. subst o.
  destruct (accepted_segments v jwt st r st' Hrun) as (j & Hj).
  destruct (verify_token_accepted v jwt st r st' j Hrun Hj)
    as (sk & payload & _ & _ & Hs & _).
  apply _verify_signature_Ok in Hs.
  destruct Hs as (a & _ & Hin & _ & Hne & _).
  rewrite (configured_algorithms_eq environ v Hv) in Hin.
  apply list_elem_of_In in Hin. apply list_elem_of_fmap in Hin.
  destruct Hin as (w & -> & Hw). apply list_elem_of_In in Hw.
  exact (Hne (Hblank w Hw)).
Qed.

Lemma blank_algorithms_reject_all_witness :
  fst (verify_token (H := Demo.world)
         (Auth0TokenVerifier_init "tenant.example" "api"
            (Some [EmptyString; EmptyString])) "full" Demo.warm) = None.
Proof.
  apply (blank_algorithms_reject_all (H := Demo.world)
           Demo2.environ_blank_algorithms
           (Auth0TokenVerifier_init "tenant.example" "api"
              (Some [EmptyString; EmptyString])) "full" Demo.warm eq_refl).
  intros w [<-|[<-|[]]]; reflexivity.
Defined.

(** The token of the log lines: a token of at most 16 characters is not
    shown at all; of a longer one the first 10 and the last 6 characters
    are shown around three dots, 19 characters in all, and the
    characters between them, at least one, are left out. *)
Theorem token_preview_hides (jwt : string) :
  ((String.length jwt <= 16)%nat -> token_preview jwt = "***SHORT***") /\
  ((16 < String.length jwt)%nat ->
   token_preview jwt = take 10 jwt ++ "..." ++ last_n 6 jwt /\
   String.length (token_preview jwt) = 19%nat /\
   exists hidden,
     jwt = take 10 jwt ++ hidden ++ last_n 6 jwt /\
     String.length hidden = (String.length jwt - 16)%nat).
Proof.
  unfold token_preview. split.
  - intros Hle. destruct (Nat.ltb_spec 16 (String.length jwt)); [lia|].
    reflexivity.
  - intros Hlt. destruct (Nat.ltb_spec 16 (String.length jwt)); [|lia].
    split; [reflexivity|]. split.
    + rewrite !length_app, length_take. unfold last_n. rewrite length_drop.
      simpl String.length. lia.
    + exists (take (String.length jwt - 16) (drop 10 jwt)). split.
      * unfold last_n.
        replace (String.length jwt - 6)%nat
          with (10 + (String.length jwt - 16))%nat by lia.
        rewrite <- drop_drop, take_drop, take_drop. reflexivity.
      * rewrite length_take, length_drop. lia.
Qed.

(** The header handed to the base64 decoder: the part of the token
    before its first dot, then one to four padding characters that bring
    the length to a multiple of four; four of them when the length
    already was one. *)
Theorem header_padding (jwt : string) :
  (exists rest, jwt = header_segment jwt ++ rest /\
                (rest = EmptyString \/ first_char rest = Some "."%char)) /\
  ~ In "."%char (chars (header_segment jwt)) /\
  (String.length (pad_header (header_segment jwt)) mod 4 = 0)%nat /\
  exists n, (1 <= n <= 4)%nat /\
    pad_header (header_segment jwt)
      = header_segment jwt ++ repeat_char "=" n /\
    ((String.length (header_segment jwt) mod 4 = 0)%nat -> n = 4%nat).
Proof.
  split; [|split; [|split]].
  - unfold header_segment. induction jwt as [|c s (rest & IH & Hrest)].
    + exists EmptyString. simpl. auto.
    + simpl. destruct (Ascii.eqb_spec c "."%char) as [->|Hne].
      * exists (String "." s). simpl. auto.
      * destruct (split_on_cons "." s) as (w & ws & Hs). rewrite Hs in IH |- *.
        exists rest. rewrite app_cons, <- IH. auto.
  - unfold header_segment.
    destruct (split_on_cons "." jwt) as (w & ws & Hs). rewrite Hs.
    apply (split_on_no_sep "." jwt). rewrite Hs. left. reflexivity.
  - unfold pad_header. rewrite length_app, length_repeat_char.
    set (n := String.length (header_segment jwt)).
    pose proof (Nat.div_mod_eq n 4). pose proof (Nat.mod_upper_bound n 4).
    replace (n + (4 - n mod 4))%nat with ((n / 4 + 1) * 4)%nat by lia.
    apply Nat.Div0.mod_mul.
  - unfold pad_header.
    set (n := String.length (header_segment jwt)).
    pose proof (Nat.mod_upper_bound n 4).
    exists (4 - n mod 4)%nat. repeat split; lia.
Qed.

(** ** Properties of [main.py] *)

Lemma take_app_length (s t : string) : take (String.length s) (s ++ t) = s.
Proof.
  induction s as [|c s IH]; simpl.
  - destruct t; reflexivity.
  - rewrite IH. reflexivity.
Qed.

Lemma id_at_Some (s id : string) :
  id_at s = Some id -> valid_id id /\ s = id ++ drop 11 s.
Proof.
  unfold id_at.
  destruct (String.length (take 11 s) =? 11)%nat eqn:Hlen; [|discriminate].
  destruct (forallb is_id_char (chars (take 11 s))) eqn:Hall; [|discriminate].
  intros [= <-]. split; [split|].
  - apply Nat.eqb_eq. exact Hlen.
  - intros c Hc. rewrite forallb_forall in Hall. exact (Hall c Hc).
  - exact (eq_sym (take_drop 11 s)).
Qed.

Lemma id_at_app (id rest : string) : valid_id id -> id_at (id ++ rest) = Some id.
Proof.
  intros [Hlen Hchars].
  assert (Ht : take 11 (id ++ rest) = id)
    by (rewrite <- Hlen; apply take_app_length).
  assert (Hall : forallb is_id_char (chars id) = true)
    by (apply forallb_forall; exact Hchars).
  unfold id_at. cbv zeta. rewrite Ht, Hlen, Hall. reflexivity.
Qed.

Lemma prefix_cons (a b : ascii) (p s : string) :
  String.prefix (String a p) (String b s)
    = if ascii_dec a b then String.prefix p s else false.
Proof. reflexivity. Qed.

Lemma prefix_app (p : string) : forall s,
  String.prefix p s = true <-> exists rest, s = p ++ rest.
Proof.
  induction p as [|a p IH]; intros s.
  - split; [intros _; exists s; reflexivity | intros _; destruct s; reflexivity].
  - destruct s as [|b s].
    + split; [discriminate | intros (rest & Hr); discriminate Hr].
    + rewrite prefix_cons. destruct (ascii_dec a b) as [<-|Hne].
      * rewrite IH. split; intros (rest & Hr); exists rest.
        -- rewrite Hr. reflexivity.
        -- rewrite app_cons in Hr. injection Hr as ->. reflexivity.
      * split; [discriminate|]. intros (rest & Hr).
        rewrite app_cons in Hr. congruence.
Qed.

Lemma prefix_v (s : string) :
  String.prefix "v=" s = true <-> exists rest, s = "v=" ++ rest.
Proof. apply prefix_app. Qed.

Lemma prefix_slash (s : string) :
  String.prefix "/" s = true <-> exists rest, s = "/" ++ rest.
Proof. apply prefix_app. Qed.

Lemma match_here_Some (s id : string) :
  match_here s = Some id ->
  valid_id id /\
  exists rest, s = "v=" ++ id ++ rest \/ s = "/" ++ id ++ rest.
Proof.
  unfold match_here.
  destruct (String.prefix "v=" s) eqn:Hv.
  - apply prefix_v in Hv. destruct Hv as (r & ->).
    change (drop 2 ("v=" ++ r)) with r.
    destruct (id_at r) as [id'|] eqn:Hid.
    + intros [= <-]. apply id_at_Some in Hid. destruct Hid as [Hval Hr].
      split; [exact Hval|]. exists (drop 11 r). left. rewrite <- Hr.
      reflexivity.
    + simpl. discriminate.
  - destruct (String.prefix "/" s) eqn:Hs; [|discriminate].
    apply prefix_slash in Hs. destruct Hs as (r & ->).
    change (drop 1 ("/" ++ r)) with r.
    intros Hid. apply id_at_Some in Hid. destruct Hid as [Hval Hr].
    split; [exact Hval|]. exists (drop 11 r). right. rewrite <- Hr.
    reflexivity.
Qed.

Lemma match_here_occurrence (id rest : string) :
  valid_id id ->
  (exists id', match_here ("v=" ++ id ++ rest) = Some id') /\
  (exists id', match_here ("/" ++ id ++ rest) = Some id').
Proof.
  intros Hval. unfold match_here. split.
  - assert (String.prefix "v=" ("v=" ++ id ++ rest) = true) as ->
      by (apply prefix_v; eauto).
    change (drop 2 ("v=" ++ id ++ rest)) with (id ++ rest).
    rewrite (id_at_app id rest Hval). eauto.
  - assert (String.prefix "v=" ("/" ++ id ++ rest) = false) as ->.
    { destruct (String.prefix "v=" ("/" ++ id ++ rest)) eqn:Hp; [|reflexivity].
      apply prefix_v in Hp. destruct Hp as (r & Hr). discriminate Hr. }
    assert (String.prefix "/" ("/" ++ id ++ rest) = true) as ->
      by (apply prefix_slash; eauto).
    change (drop 1 ("/" ++ id ++ rest)) with (id ++ rest).
    rewrite (id_at_app id rest Hval). eauto.
Qed.

Lemma search_video_id_sound (url id : string) :
  search_video_id url = Some id -> valid_id id /\ id_occurs url id.
Proof.
  induction url as [|c url IH]; [discriminate|].
  simpl search_video_id.
  destruct (match_here (String c url)) as [id'|] eqn:Hm.
  - intros [= ->]. apply match_here_Some in Hm.
    destruct Hm as (Hval & rest & Hrest). split; [exact Hval|].
    exists EmptyString, rest. exact Hrest.
  - intros Hs. destruct (IH Hs) as (Hval & pre & rest & Hocc).
    split; [exact Hval|]. exists (String c pre), rest.
    destruct Hocc as [-> | ->]; [left | right]; reflexivity.
Qed.

Lemma search_video_id_complete (url id : string) :
  valid_id id -> id_occurs url id -> exists id', search_video_id url = Some id'.
Proof.
  intros Hval (pre & rest & Hocc). revert url Hocc.
  induction pre as [|c pre IH]; intros url Hocc.
  - destruct (match_here_occurrence id rest Hval) as [(i1 & H1) (i2 & H2)].
    destruct Hocc as [-> | ->].
    + change (EmptyString ++ "v=" ++ id ++ rest)
        with (String "v" ("=" ++ id ++ rest)).
      simpl search_video_id.
      change (String "v" ("=" ++ id ++ rest)) with ("v=" ++ id ++ rest).
      rewrite H1. eauto.
    + change (EmptyString ++ "/" ++ id ++ rest)
        with (String "/" (id ++ rest)).
      simpl search_video_id.
      change (String "/" (id ++ rest)) with ("/" ++ id ++ rest).
      rewrite H2. eauto.
  - assert (exists url', url = String c url' /\
              (url' = pre ++ "v=" ++ id ++ rest \/
               url' = pre ++ "/" ++ id ++ rest)) as (url' & -> & Hocc').
    { destruct Hocc as [-> | ->]; eexists; split; try reflexivity; auto. }
    simpl search_video_id.
    destruct (match_here (String c url')); [eauto|].
    exact (IH url' Hocc').
Qed.

(** The video identifier taken from a URL is 11 characters of the class
    and stands in the URL right after a ["v="] or a ["/"]; and one is
    found whenever the URL has such an occurrence, so "Invalid YouTube
    URL" is raised exactly for the URLs that have none. *)
Theorem search_video_id_spec (url : string) :
  (forall id, search_video_id url = Some id ->
              valid_id id /\ id_occurs url id) /\
  (search_video_id url = None <->
   forall id, valid_id id -> ~ id_occurs url id).
Proof.
  split; [exact (search_video_id_sound url)|]. split.
  - intros Hnone id Hval Hocc.
    destruct (search_video_id_complete url id Hval Hocc) as (id' & Hid').
    congruence.
  - intros Hno. destruct (search_video_id url) as [id|] eqn:Hs; [|reflexivity].
    destruct (search_video_id_sound url id Hs) as [Hval Hocc].
    destruct (Hno id Hval Hocc).
Qed.

(** The loop of [format_transcript] formats every entry, or stops at
    the first that fails. *)
Lemma formatted_entries_cases (Entry : Type)
  (minutes_of seconds_of : Entry -> string + Z)
  (text_of : Entry -> string + string) (transcript : list Entry) :
  (exists lines,
     formatted_entries Entry minutes_of seconds_of text_of transcript
     = inr lines /\
     Forall2 (fun entry line =>
                format_entry Entry minutes_of seconds_of text_of entry
                = inr line) transcript lines) \/
  (exists message before entry after lines,
     formatted_entries Entry minutes_of seconds_of text_of transcript
     = inl message /\
     transcript = (before ++ entry :: after)%list /\
     Forall2 (fun entry line =>
                format_entry Entry minutes_of seconds_of text_of entry
                = inr line) before lines /\
     format_entry Entry minutes_of seconds_of text_of entry = inl message).
Proof.
  induction transcript as [|e t IH].
  - left. exists []. split; [reflexivity | constructor].
  - cbn [formatted_entries].
    destruct (format_entry Entry minutes_of seconds_of text_of e)
      as [m|line] eqn:He.
    + right. exists m, [], e, t, []. repeat split; auto.
    + destruct IH as [(lines & -> & Hall)|
                      (m & b & e' & a & ls & -> & -> & Hb & He')].
      * left. exists (line :: lines). split; [reflexivity|].
        constructor; assumption.
      * right. exists m, (e :: b), e', a, (line :: ls).
        repeat split; auto.
Qed.

(** [fetch_video_transcript] asks the transcript service only for a
    well-formed identifier that stands in the URL.  It raises
    [ValueError] "Invalid YouTube URL" exactly when the URL has no
    identifier.  It returns only the formatted transcript of that
    identifier, every entry of which was formatted.  It raises an
    exception otherwise, whose message is "Error fetching transcript: "
    before the message of the service, or before the message of the
    first entry that failed in formatting. *)
Theorem fetch_video_transcript_outcomes (Entry : Type)
  (minutes_of seconds_of : Entry -> string + Z)
  (text_of : Entry -> string + string)
  (get_transcript : string -> string + list Entry) (url : string) :
  match fetch_video_transcript Entry minutes_of seconds_of text_of
          get_transcript url
  with
  | Returned s =>
      exists id transcript lines,
        valid_id id /\ id_occurs url id /\
        get_transcript id = inr transcript /\
        Forall2 (fun entry line =>
                   format_entry Entry minutes_of seconds_of text_of entry
                   = inr line) transcript lines /\
        s = String.concat newline lines
  | RaisedValueError m =>
      m = "Invalid YouTube URL" /\
      forall id, valid_id id -> ~ id_occurs url id
  | RaisedException m =>
      exists id message,
        valid_id id /\ id_occurs url id /\
        m = "Error fetching transcript: " ++ message /\
        (get_transcript id = inl message \/
         exists before entry after lines,
           get_transcript id = inr (before ++ entry :: after)%list /\
           Forall2 (fun entry line =>
                      format_entry Entry minutes_of seconds_of text_of entry
                      = inr line) before lines /\
           format_entry Entry minutes_of seconds_of text_of entry
           = inl message)
  | RaisedOSError => False
  end.
Proof.
  unfold fetch_video_transcript.
  destruct (search_video_id url) as [id|] eqn:Hs.
  - destruct (search_video_id_sound url id Hs) as [Hval Hocc].
    destruct (get_transcript id) as [message|transcript] eqn:Hg.
    + exists id, message. auto.
    + unfold format_transcript.
      destruct (formatted_entries_cases Entry minutes_of seconds_of text_of
                  transcript) as [(lines & -> & Hall)|
                                  (message & b & e & a & ls & -> & -> & Hb & He)].
      * exists id, transcript, lines. auto.
      * exists id, message.
        split; [exact Hval|]. split; [exact Hocc|]. split; [reflexivity|].
        right. exists b, e, a, ls. auto.
  - split; [reflexivity|]. intros id Hval Hocc.
    destruct (search_video_id_complete url id Hval Hocc) as (id' & Hid').
    congruence.
Qed.

(** The four outcomes, on a service that serves one video as snippets
    and one as dictionaries. *)
Lemma fetch_video_transcript_examples :
  fetch_video_transcript Demo2.item Demo2.item_minutes Demo2.item_seconds
    Demo2.item_text Demo2.transcripts
    "https://www.youtube.com/watch?v=dQw4w9WgXcQ"
  = Returned ("[00:00] intro" ++ newline ++ "[01:15] verse") /\
  fetch_video_transcript Demo2.item Demo2.item_minutes Demo2.item_seconds
    Demo2.item_text Demo2.transcripts "https://youtu.be/aaaaaaaaaaa"
  = RaisedException
      "Error fetching transcript: 'dict' object has no attribute 'start'" /\
  fetch_video_transcript Demo2.item Demo2.item_minutes Demo2.item_seconds
    Demo2.item_text Demo2.transcripts "https://youtu.be/bbbbbbbbbbb"
  = RaisedException "Error fetching transcript: no transcript" /\
  fetch_video_transcript Demo2.item Demo2.item_minutes Demo2.item_seconds
    Demo2.item_text Demo2.transcripts "dQw4w9WgXcQ"
  = RaisedValueError "Invalid YouTube URL".
Proof. repeat split; vm_compute; reflexivity. Qed.

Lemma app_assoc_s (s t u : string) : (s ++ t) ++ u = s ++ t ++ u.
Proof.
  induction s as [|c s IH]; [reflexivity|].
  rewrite !app_cons, IH. reflexivity.
Qed.

Lemma drop_app_length (s t : string) : drop (String.length s) (s ++ t) = t.
Proof. induction s as [|c s IH]; [destruct t; reflexivity | exact IH]. Qed.

Lemma fmt_02d_length (z : Z) :
  0 <= z < 100 -> String.length (fmt_02d z) = 2%nat.
Proof.
  intros Hz.
  assert (Hall : forallb (fun n => (String.length (fmt_02d (Z.of_nat n)) =? 2)%nat)
                   (seq 0 100) = true) by (vm_compute; reflexivity).
  rewrite forallb_forall in Hall.
  specialize (Hall (Z.to_nat z)). rewrite Z2Nat.id in Hall by lia.
  apply Nat.eqb_eq. apply Hall. apply in_seq. lia.
Qed.

(** A line of the formatted transcript, for an entry before the 100th
    minute whose start and text can be read: a stamp of exactly eight
    characters, two digits of minutes and two of seconds between the
    brackets and a blank, then the text of the entry unchanged. *)
Theorem format_entry_stamp (Entry : Type)
  (minutes_of seconds_of : Entry -> string + Z)
  (text_of : Entry -> string + string) (e : Entry) minutes seconds text :
  minutes_of e = inr minutes ->
  seconds_of e = inr seconds ->
  text_of e = inr text ->
  0 <= minutes < 100 ->
  0 <= seconds < 60 ->
  exists line,
    format_entry Entry minutes_of seconds_of text_of e = inr line /\
    line = ("[" ++ fmt_02d minutes ++ ":" ++ fmt_02d seconds ++ "] ") ++ text /\
    String.length ("[" ++ fmt_02d minutes ++ ":" ++ fmt_02d seconds ++ "] ")
      = 8%nat /\
    drop 8 line = text /\
    String.length line = (8 + String.length text)%nat.
Proof.
  intros Hmin Hsec Htext Hm Hs.
  set (stamp := "[" ++ fmt_02d minutes ++ ":" ++ fmt_02d seconds ++ "] ").
  assert (Hl : String.length stamp = 8%nat).
  { unfold stamp. rewrite !length_app.
    rewrite (fmt_02d_length _ Hm), (fmt_02d_length seconds) by lia.
    reflexivity. }
  exists (stamp ++ text). split.
  - unfold format_entry, stamp. rewrite Hmin, Hsec, Htext. cbv zeta.
    rewrite !app_assoc_s. reflexivity.
  - split; [reflexivity|]. split; [exact Hl|]. split.
    + rewrite <- Hl. apply drop_app_length.
    + rewrite length_app, Hl. reflexivity.
Qed.

Lemma format_entry_stamp_witness :
  exists line,
    format_entry Demo2.item Demo2.item_minutes Demo2.item_seconds
      Demo2.item_text (Demo2.Snippet 75 "verse") = inr line /\
    line = "[01:15] verse" /\
    drop 8 line = "verse".
Proof.
  destruct (format_entry_stamp Demo2.item Demo2.item_minutes
              Demo2.item_seconds Demo2.item_text (Demo2.Snippet 75 "verse")
              1 15 "verse" eq_refl eq_refl eq_refl
              ltac:(lia) ltac:(lia))
    as (line & Hf & Hline & _ & Hd & _).
  exists line. split; [exact Hf|]. split; [exact Hline | exact Hd].
Defined.

Lemma last_char_app (s : string) (c : ascii) (t : string) :
  last_char (s ++ String c t) = last_char (String c t).
Proof.
  induction s as [|a s IH]; [reflexivity|].
  rewrite app_cons. simpl last_char at 1.
  destruct (s ++ String c t) eqn:Hst; [|exact IH].
  destruct s; discriminate Hst.
Qed.

Lemma join_prompts (dir : string) :
  os_path_join dir ["prompts"] = dir ++ "prompts" \/
  os_path_join dir ["prompts"] = dir ++ "/prompts".
Proof.
  unfold os_path_join. simpl fold_left. unfold join_step.
  replace (String.prefix "/" "prompts") with false by reflexivity.
  destruct (String.eqb dir EmptyString
            || match last_char dir with
               | Some c => Ascii.eqb c "/"
               | None => false
               end); auto.
Qed.

(** The file [fetch_instructions] reads: for a prompt name that starts
    with a slash, the name with [.md] after it, wherever the script is;
    for any other name, the name with [.md] after it under the [prompts]
    directory of the script, the name taken as it is. *)
Theorem prompt_path_spec (read_file : string -> option string)
  (script_dir prompt_name : string) :
  (String.prefix "/" prompt_name = true ->
   prompt_path script_dir prompt_name = prompt_name ++ ".md" /\
   fetch_instructions read_file script_dir prompt_name
     = match read_file (prompt_name ++ ".md") with
       | Some content => Returned content
       | None => RaisedOSError
       end) /\
  (String.prefix "/" prompt_name = false ->
   prompt_path script_dir prompt_name
     = os_path_join script_dir ["prompts"] ++ "/" ++ prompt_name ++ ".md" /\
   (os_path_join script_dir ["prompts"] = script_dir ++ "prompts" \/
    os_path_join script_dir ["prompts"] = script_dir ++ "/prompts")).
Proof.
  assert (Hstep : prompt_path script_dir prompt_name
            = join_step (os_path_join script_dir ["prompts"])
                (prompt_name ++ ".md")) by reflexivity.
  split.
  - intros Habs.
    assert (Hp : prompt_path script_dir prompt_name = prompt_name ++ ".md").
    { rewrite Hstep. unfold join_step.
      assert (String.prefix "/" (prompt_name ++ ".md") = true) as ->;
        [|reflexivity].
      apply prefix_slash in Habs. destruct Habs as (r & ->).
      apply prefix_slash. exists (r ++ ".md"). rewrite app_assoc_s.
      reflexivity. }
    split; [exact Hp|]. unfold fetch_instructions. rewrite Hp. reflexivity.
  - intros Hrel. split; [|apply join_prompts].
    rewrite Hstep. unfold join_step.
    assert (String.prefix "/" (prompt_name ++ ".md") = false) as ->.
    { destruct (String.prefix "/" (prompt_name ++ ".md")) eqn:Hp;
        [|reflexivity].
      apply prefix_slash in Hp. destruct Hp as (r & Hr).
      destruct prompt_name as [|c n]; [discriminate Hr|].
      rewrite !app_cons in Hr. injection Hr as -> _.
      assert (String.prefix "/" (String "/" n) = true)
        by (apply prefix_slash; exists n; reflexivity).
      congruence. }
    assert (String.eqb (os_path_join script_dir ["prompts"]) EmptyString
            || match last_char (os_path_join script_dir ["prompts"]) with
               | Some c => Ascii.eqb c "/"
               | None => false
               end = false) as ->; [|reflexivity].
    destruct (join_prompts script_dir) as [-> | ->].
    + rewrite (last_char_app script_dir "p" "rompts").
      destruct script_dir; reflexivity.
    + rewrite (last_char_app script_dir "/" "prompts").
      destruct script_dir; reflexivity.
Qed.

Lemma prompt_path_spec_witness :
  fetch_instructions Demo2.files "/srv/app" "/etc/hostname" = Returned "host".
Proof.
  exact (eq_trans
           (proj2 (proj1 (prompt_path_spec Demo2.files "/srv/app"
                            "/etc/hostname") eq_refl))
           eq_refl).
Defined.

(** The server is configured only when AUTH0_DOMAIN, RESOURCE_SERVER_URL
    and AUTH0_AUDIENCE are all set and not empty, the port is a number,
    the instructions file can be read and both URLs are http or https
    URLs; the issuer it announces is the URL of the issuer its verifier
    requires of a token, the resource it announces is the URL of
    RESOURCE_SERVER_URL, and the verifier's audience is AUTH0_AUDIENCE,
    whatever RESOURCE_SERVER_URL is. *)
Theorem startup_requires (int_of_str : string -> option Z)
  (AnyHttpUrl : string -> option string)
  (read_file : string -> option string) (environ : gmap string string) srv :
  startup int_of_str AnyHttpUrl read_file environ = Ok srv ->
  (exists d a u,
     environ !! "AUTH0_DOMAIN" = Some d /\ d <> EmptyString /\
     environ !! "AUTH0_AUDIENCE" = Some a /\ a <> EmptyString /\
     environ !! "RESOURCE_SERVER_URL" = Some u /\ u <> EmptyString /\
     audience (token_verifier srv) = a /\
     AnyHttpUrl u = Some (resource_server_url srv) /\
     AnyHttpUrl ("https://" ++ d ++ "/") = Some (issuer_url srv)) /\
  AnyHttpUrl (issuer (token_verifier srv)) = Some (issuer_url srv) /\
  int_of_str (default "8000" (environ !! "PORT")) = Some (port srv) /\
  read_file "prompts/server_instructions.md" = Some (instructions srv).
Proof.
  unfold startup.
  destruct (int_of_str (default "8000" (environ !! "PORT"))) as [p|];
    [|discriminate].
  destruct (unset (environ !! "AUTH0_DOMAIN")) eqn:Hd; [discriminate|].
  destruct (unset (environ !! "RESOURCE_SERVER_URL")) eqn:Hu; [discriminate|].
  destruct (read_file "prompts/server_instructions.md") as [ins|];
    [|discriminate].
  destruct (create_auth0_verifier environ) as [v|e] eqn:Hv; [|discriminate].
  cbn [mbind result_bind].
  destruct (create_auth0_verifier_Ok environ v Hv)
    as (d & a & Hd' & Hdne & Ha' & Hane & _ & Haud & Hiss & _).
  apply unset_false in Hu. destruct Hu as (u & Hu' & Hune).
  rewrite Hd', Hu'. cbn [default from_option id].
  destruct (AnyHttpUrl ("https://" ++ d ++ "/")) as [iu|] eqn:Hiu;
    [|discriminate].
  destruct (AnyHttpUrl u) as [ru|] eqn:Hru; [|discriminate].
  intros [= <-]. cbn [token_verifier issuer_url resource_server_url port
                      instructions].
  rewrite Hiss, Hiu. repeat split; auto.
  exists d, a, u. repeat split; auto.
Qed.

Lemma startup_requires_witness :
  exists srv,
    startup Demo2.int_of_port Demo2.http_url Demo2.files
      Demo2.environ_capitals = Ok srv /\
    Demo2.http_url (issuer (token_verifier srv)) = Some (issuer_url srv) /\
    issuer (token_verifier srv) = "https://Tenant.Example/" /\
    issuer_url srv = "https://tenant.example/".
Proof.
  eexists. split; [reflexivity|]. split; [|split; reflexivity].
  exact (proj1 (proj2 (startup_requires Demo2.int_of_port Demo2.http_url
                         Demo2.files Demo2.environ_capitals _ eq_refl))).
Defined.
